(** * SocialNetwork: the account views and the post serializer

    A shallow embedding of [Accounts/views.py] (class [UsersViewSet]) and of
    [Posts/serializers.py] (class [PostSerializer]), with the properties of
    the follow-relationship model that the specification states about them.

    The relational store is explicit state: every request handler is a
    computation in a state-and-exception monad over the tables it touches.
    What the handlers take from the web framework (coercion of a URL key to a
    primary key, get-or-create, delete, permission checks, page-number
    pagination) is written out next to them; what they take from modules of
    the application that are outside the two files (the permission class, the
    serializers, the filter set, the password hasher) is a variable of the
    section that contains the views. *)

From Stdlib Require Import ZArith List String Ascii Bool Arith Lia.
From Stdlib Require Import Sorted Permutation.
Import ListNotations.

Local Open Scope string_scope.
Local Open Scope Z_scope.

(** ** Python values *)

Module Py.

(** The values that reach the comparisons and the truth tests of the views:
    a URL keyword argument is a [Str], a primary key an [Int] ([NoneVal],
    Python's [None], on the anonymous user), a serializer flag a [Bool]. *)
Inductive value : Type :=
| NoneVal
| Str (s : string)
| Int (n : Z)
| Bool (b : bool).

Definition as_int (v : value) : option Z :=
  match v with
  | NoneVal | Str _ => None
  | Int n => Some n
  | Bool b => Some (if b then 1 else 0)
  end.

(** [a == b]: strings compare with strings, numbers with numbers ([bool]
    is a subclass of [int]); a string never equals a number. *)
Definition eq (a b : value) : bool :=
  match a, b with
  | NoneVal, NoneVal => true
  | Str s, Str t => String.eqb s t
  | NoneVal, _ | _, NoneVal | Str _, _ | _, Str _ => false
  | _, _ =>
      match as_int a, as_int b with
      | Some m, Some n => m =? n
      | _, _ => false
      end
  end.

(** Truth value of [if v:]. *)
Definition truth (v : value) : bool :=
  match v with
  | NoneVal => false
  | Str s => negb (String.eqb s "")
  | Int n => negb (n =? 0)
  | Bool b => b
  end.

(** *** [int(s)] on a string

    A [str] is held as its UTF-8 bytes.  [int] first brings the string to
    ASCII: a character below 127 stays, a Unicode white-space character
    becomes a blank, a Unicode decimal digit becomes its ASCII digit, and
    the string is cut, with a question mark, at any other character.  It then
    reads the ASCII string: white space around, one sign, decimal digits that
    single underscores may group, and no more digits than the interpreter
    converts. *)

(** The scalar value of a decoded sequence, refused when a shorter sequence
    encodes it, when it is a surrogate or when it is past the last code
    point. *)
Definition scalar (least cp : N) : option N :=
  if ((least <=? cp) && (cp <=? 0x10FFFF)
      && negb ((0xD800 <=? cp) && (cp <=? 0xDFFF)))%N
  then Some cp else None.

Definition continuation (c : ascii) : option N :=
  let n := N_of_ascii c in
  if ((0x80 <=? n) && (n <? 0xC0))%N then Some (n - 0x80)%N else None.

(** The code points of a string of UTF-8 bytes, [None] when the bytes are
    no UTF-8. *)
Fixpoint decode (s : string) : option (list N) :=
  match s with
  | EmptyString => Some []
  | String c0 s1 =>
      let n0 := N_of_ascii c0 in
      if (n0 <? 0x80)%N then option_map (cons n0) (decode s1)
      else if (n0 <? 0xC0)%N then None
      else if (n0 <? 0xE0)%N then
        match s1 with
        | String c1 s2 =>
            match continuation c1 with
            | Some x1 =>
                match scalar 0x80 ((n0 - 0xC0) * 0x40 + x1) with
                | Some cp => option_map (cons cp) (decode s2)
                | None => None
                end
            | None => None
            end
        | EmptyString => None
        end
      else if (n0 <? 0xF0)%N then
        match s1 with
        | String c1 (String c2 s3) =>
            match continuation c1, continuation c2 with
            | Some x1, Some x2 =>
                match scalar 0x800
                        ((n0 - 0xE0) * 0x1000 + x1 * 0x40 + x2) with
                | Some cp => option_map (cons cp) (decode s3)
                | None => None
                end
            | _, _ => None
            end
        | _ => None
        end
      else if (n0 <? 0xF8)%N then
        match s1 with
        | String c1 (String c2 (String c3 s4)) =>
            match continuation c1, continuation c2, continuation c3 with
            | Some x1, Some x2, Some x3 =>
                match scalar 0x10000
                        ((n0 - 0xF0) * 0x40000 + x1 * 0x1000 + x2 * 0x40 + x3)
                with
                | Some cp => option_map (cons cp) (decode s4)
                | None => None
                end
            | _, _, _ => None
            end
        | _ => None
        end
      else None
  end.

(** The white-space characters from 127 on. *)
Definition unicode_spaces : list N :=
  [0x85; 0xa0; 0x1680; 0x2000; 0x2001; 0x2002; 0x2003; 0x2004; 0x2005;
   0x2006; 0x2007; 0x2008; 0x2009; 0x200a; 0x2028; 0x2029; 0x202f; 0x205f;
   0x3000]%N.

(** The zeros of the decimal digits from 127 on (Unicode 14.0, the database
    of CPython 3.11); the digits 1 to 9 of each script follow its zero. *)
Definition unicode_zeros : list N :=
  [0x660; 0x6f0; 0x7c0; 0x966; 0x9e6; 0xa66; 0xae6; 0xb66; 0xbe6; 0xc66;
   0xce6; 0xd66; 0xde6; 0xe50; 0xed0; 0xf20; 0x1040; 0x1090; 0x17e0;
   0x1810; 0x1946; 0x19d0; 0x1a80; 0x1a90; 0x1b50; 0x1bb0; 0x1c40; 0x1c50;
   0xa620; 0xa8d0; 0xa900; 0xa9d0; 0xa9f0; 0xaa50; 0xabf0; 0xff10; 0x104a0;
   0x10d30; 0x11066; 0x110f0; 0x11136; 0x111d0; 0x112f0; 0x11450; 0x114d0;
   0x11650; 0x116c0; 0x11730; 0x118e0; 0x11950; 0x11c50; 0x11d50; 0x11da0;
   0x16a60; 0x16ac0; 0x16b50; 0x1d7ce; 0x1d7d8; 0x1d7e2; 0x1d7ec; 0x1d7f6;
   0x1e140; 0x1e2f0; 0x1e950; 0x1fbf0]%N.

Definition is_unicode_space (cp : N) : bool := existsb (N.eqb cp) unicode_spaces.

Definition unicode_decimal (cp : N) : option N :=
  match find (fun z => (z <=? cp) && (cp <? z + 10))%N unicode_zeros with
  | Some z => Some (cp - z)%N
  | None => None
  end.

Fixpoint to_ascii (cps : list N) : string :=
  match cps with
  | [] => EmptyString
  | cp :: rest =>
      if (cp <? 127)%N then String (ascii_of_N cp) (to_ascii rest)
      else if is_unicode_space cp then String " " (to_ascii rest)
      else
        match unicode_decimal cp with
        | Some d => String (ascii_of_N (48 + d)) (to_ascii rest)
        | None => String "?" EmptyString
        end
  end.

(** White space of the ASCII string: tab to carriage return, and blank. *)
Definition is_space (c : ascii) : bool :=
  let n := nat_of_ascii c in
  ((9 <=? n) && (n <=? 13) || (n =? 32))%nat.

Definition digit_of (c : ascii) : option Z :=
  let n := nat_of_ascii c in
  if ((48 <=? n) && (n <=? 57))%nat then Some (Z.of_nat (n - 48)) else None.

Fixpoint lstrip (s : string) : string :=
  match s with
  | EmptyString => EmptyString
  | String c s' => if is_space c then lstrip s' else s
  end.

Fixpoint rstrip (s : string) : string :=
  match s with
  | EmptyString => EmptyString
  | String c s' =>
      match rstrip s' with
      | EmptyString => if is_space c then EmptyString else String c EmptyString
      | r => String c r
      end
  end.

Definition strip (s : string) : string := rstrip (lstrip s).

(** [digits acc after_digit s]: [after_digit] tells whether the previous
    character was a digit, the only place where an underscore or the end of
    the literal may come. *)
Fixpoint digits (acc : Z) (after_digit : bool) (s : string) : option Z :=
  match s with
  | EmptyString => if after_digit then Some acc else None
  | String c s' =>
      match digit_of c with
      | Some d => digits (10 * acc + d) true s'
      | None =>
          if Ascii.eqb c "_" && after_digit then digits acc false s' else None
      end
  end.

(** The default of [sys.get_int_max_str_digits()]. *)
Definition int_max_str_digits : nat := 4300.

Fixpoint digit_count (s : string) : nat :=
  match s with
  | EmptyString => O
  | String c s' =>
      match digit_of c with
      | Some _ => S (digit_count s')
      | None => digit_count s'
      end
  end.

Definition literal (s : string) : option Z :=
  if (digit_count s <=? int_max_str_digits)%nat then digits 0 false s
  else None.

Definition int_of_str (s : string) : option Z :=
  match decode s with
  | None => None
  | Some cps =>
      match strip (to_ascii cps) with
      | String "+" r => literal r
      | String "-" r => option_map Z.opp (literal r)
      | r => literal r
      end
  end.

End Py.

(** ** Exceptions and the request monad *)

Inductive exn : Type :=
| ValueError
| TypeError
| KeyError
| NotImplementedError
| AttributeError
| IntegrityError
| MultipleObjectsReturned
| Http404
| NotFound
| NotAuthenticated
| PermissionDenied.

Inductive result (A : Type) : Type :=
| Ok (a : A)
| Raise (e : exn).

Arguments Ok {A} a.
Arguments Raise {A} e.

(** ** Data model *)

(** Modelled from the spec: the [User] model ([Accounts/models.py] is outside
    the two files).  Section 3 lists its attributes; [id] is the primary key
    that the views read as [request.user.id], an integer. *)
Record User : Type := {
  id : Z;
  username : string;
  email : string;
  password : string;
  is_active : bool;
  last_login : option Z;
  last_request : option Z
}.

(** Modelled from the spec: a row of [UserFriends], the directed edge
    "[user] follows [friend]"; the views address its columns as [user] and
    [friend_id]. *)
Record UserFriends : Type := {
  user_id : Z;
  friend_id : Z
}.

(** Modelled from the spec: the [Post] model ([Posts/models.py] is outside the
    two files): one author and the list of the users who liked it. *)
Record Post : Type := {
  post_id : Z;
  author : Z;
  content : string;
  liked_by : list Z
}.

(** The relational store: one list of rows per table, in insertion order. *)
Record DB : Type := {
  users : list User;
  user_friends : list UserFriends;
  posts : list Post
}.

Definition with_users (db : DB) (us : list User) : DB :=
  {| users := us; user_friends := user_friends db; posts := posts db |}.

Definition with_user_friends (db : DB) (rows : list UserFriends) : DB :=
  {| users := users db; user_friends := rows; posts := posts db |}.

(** A computation of a request: it reads and writes the store and either
    returns or raises.  The store at the time of the exception is kept. *)
Definition M (A : Type) : Type := DB -> result A * DB.

Definition ret {A} (a : A) : M A := fun db => (Ok a, db).

Definition raise {A} (e : exn) : M A := fun db => (Raise e, db).

Definition bind {A B} (m : M A) (k : A -> M B) : M B :=
  fun db =>
    match m db with
    | (Ok a, db') => k a db'
    | (Raise e, db') => (Raise e, db')
    end.

Definition lift {A} (r : result A) : M A := fun db => (r, db).

Definition gets {A} (f : DB -> A) : M A := fun db => (Ok (f db), db).

Definition modify (f : DB -> DB) : M unit := fun db => (Ok tt, f db).

Notation "x <- m ;; k" := (bind m (fun x => k))
  (at level 61, m at next level, right associativity).
Notation "m ;;; k" := (bind m (fun _ => k))
  (at level 61, right associativity).

(** [request.user]: an account of the store, or the framework's
    [AnonymousUser] object. *)
Inductive user_object : Type :=
| AnonymousUser
| Account (u : User).

Definition is_anonymous (o : user_object) : bool :=
  match o with
  | AnonymousUser => true
  | Account _ => false
  end.

Definition is_authenticated (o : user_object) : bool := negb (is_anonymous o).

(** A request: the caller, the submitted form and the [page] query
    parameter (1 when absent). *)
Record Request : Type := {
  user : user_object;
  data : list (string * string);
  page_number : nat
}.

(** A serialized object is a dictionary. *)
Definition dict : Type := list (string * Py.value).

(** The payload of a response. *)
Inductive body : Type :=
| Status (status message : string)
| Errors (errors : list (string * list string))
| Listing (results : list dict)
| Paginated (count : nat) (next previous : option nat) (results : list dict)
| Created (u : User).

Record Response : Type := {
  payload : body;
  status_code : Z
}.

Definition HTTP_200_OK : Z := 200.
Definition HTTP_400_BAD_REQUEST : Z := 400.

(** [Response(data)] and [Response(data, status=...)]. *)
Definition mkResponse (b : body) (status : option Z) : Response :=
  {| payload := b;
     status_code := match status with Some s => s | None => HTTP_200_OK end |}.

(** The ['status'] entry of a status-and-message payload. *)
Definition status_of (r : Response) : option string :=
  match payload r with
  | Status s _ => Some s
  | _ => None
  end.

Definition message_of (r : Response) : option string :=
  match payload r with
  | Status _ m => Some m
  | _ => None
  end.

Definition results_of (r : Response) : list dict :=
  match payload r with
  | Listing l => l
  | Paginated _ _ _ l => l
  | _ => []
  end.


(** ** The store primitives the views call *)

(** Coercion of a lookup value to an integer key, as the model field does it:
    [int(value)], with the exception [int] raises when the value is not a
    number.  Like [int], it has no bound; what a lookup does with a number
    outside the range of the key column is the database's. *)
Definition to_key (v : Py.value) : result Z :=
  match v with
  | Py.Int n => Ok n
  | Py.Bool b => Ok (if b then 1 else 0)
  | Py.Str s =>
      match Py.int_of_str s with
      | Some n => Ok n
      | None => Raise ValueError
      end
  | Py.NoneVal => Raise TypeError
  end.

(** [request.user.id] *)
Definition id_of (o : user_object) : Py.value :=
  match o with
  | Account u => Py.Int (id u)
  | AnonymousUser => Py.NoneVal
  end.

Definition is_edge (a b : Z) (r : UserFriends) : bool :=
  (user_id r =? a) && (friend_id r =? b).

(** The edge "[a] follows [b]" is in the table. *)
Definition follows (db : DB) (a b : Z) : bool :=
  existsb (is_edge a b) (user_friends db).

Definition user_exists (db : DB) (k : Z) : bool :=
  existsb (fun u => id u =? k) (users db).

(** [UserFriends.objects.get_or_create(user=who, friend_id=pk)]: the matching
    row and [False], or a new row and [True].  More than one matching row is
    [MultipleObjectsReturned]; a new row whose keys name no user violates the
    foreign keys; the anonymous user is no key at all. *)
Definition get_or_create (who : user_object) (pk : Py.value)
  : M (UserFriends * bool) :=
  match who with
  | AnonymousUser => raise TypeError
  | Account u =>
      f <- lift (to_key pk) ;;
      rows <- gets user_friends ;;
      match filter (is_edge (id u) f) rows with
      | [r] => ret (r, false)
      | _ :: _ :: _ => raise MultipleObjectsReturned
      | [] =>
          known <- gets (fun db => user_exists db (id u) && user_exists db f) ;;
          if known then
            let r := {| user_id := id u; friend_id := f |} in
            modify (fun db => with_user_friends db (rows ++ [r])) ;;;
            ret (r, true)
          else raise IntegrityError
      end
  end.

(** [UserFriends.objects.filter(user=who, friend_id=pk).delete()]: the
    number of rows deleted, in all and per model. *)
Definition filter_delete (who : user_object) (pk : Py.value)
  : M (nat * list (string * nat)) :=
  match who with
  | AnonymousUser => raise TypeError
  | Account u =>
      f <- lift (to_key pk) ;;
      rows <- gets user_friends ;;
      let (gone, kept) := partition (is_edge (id u) f) rows in
      modify (fun db => with_user_friends db kept) ;;;
      ret (match gone with
           | [] => (0%nat, [])
           | _ => (List.length gone,
                   [("Accounts.UserFriends", List.length gone)])
           end)
  end.

(** [order_by('username')]: a stable insertion sort on the user name. *)
Fixpoint insert_by_username (u : User) (l : list User) : list User :=
  match l with
  | [] => [u]
  | v :: l' =>
      if String.leb (username u) (username v) then u :: l
      else v :: insert_by_username u l'
  end.

Definition order_by_username (l : list User) : list User :=
  fold_right insert_by_username [] l.

Definition set_is_active (u : User) (b : bool) : User :=
  {| id := id u; username := username u; email := email u;
     password := password u; is_active := b;
     last_login := last_login u; last_request := last_request u |}.

Definition set_password_hash (u : User) (h : string) : User :=
  {| id := id u; username := username u; email := email u;
     password := h; is_active := is_active u;
     last_login := last_login u; last_request := last_request u |}.

(** [instance.save()]: the row with the instance's primary key takes the
    instance's values; without such a row the instance is inserted. *)
Definition save (inst : User) : M unit :=
  modify (fun db =>
    if user_exists db (id inst) then
      with_users db
        (map (fun r => if id r =? id inst then inst else r) (users db))
    else with_users db (users db ++ [inst])).

(** [d[key]] *)
Fixpoint getitem {V : Type} (d : list (string * V)) (key : string) : result V :=
  match d with
  | [] => Raise KeyError
  | (k, v) :: d' => if String.eqb k key then Ok v else getitem d' key
  end.

(** The entry of a serialized object that gates a relationship view, read as
    a truth value. *)
Definition flag_of (key : string) (d : dict) : bool :=
  match getitem d key with
  | Ok v => Py.truth v
  | Raise _ => false
  end.

(** ** Permissions and pages *)

Inductive permission : Type :=
| AllowAny
| IsAuthenticated
| IsProfileOwnerOrAdmin.

(** The page of a paginated list. *)
Record Page : Type := {
  object_list : list User;
  number : nat;
  paginator_count : nat;
  num_pages : nat
}.

(** The candidates a list action evaluates: the page, or the whole queryset
    when there is no paginator. *)
Definition candidates (page : option Page) (queryset : list User) : list User :=
  match page with
  | Some pg => object_list pg
  | None => queryset
  end.

(** ** The user serializer *)

(** Modelled from the spec: [UserSerializer] ([Accounts/serializers.py] is
    outside the two files).  Section 3 defines the three derived flags of a
    candidate [u] for a viewer: [is_follower] is the edge from the candidate
    to the viewer, [is_followed] the edge from the viewer to the candidate,
    [is_friends] both at once.  No edge involves the anonymous user. *)
Definition to_representation (db : DB) (viewer : user_object) (u : User)
  : dict :=
  let follower :=
    match viewer with
    | Account v => follows db (id u) (id v)
    | AnonymousUser => false
    end in
  let followed :=
    match viewer with
    | Account v => follows db (id v) (id u)
    | AnonymousUser => false
    end in
  [ ("id", Py.Int (id u));
    ("username", Py.Str (username u));
    ("is_follower", Py.Bool follower);
    ("is_followed", Py.Bool followed);
    ("is_friends", Py.Bool (follower && followed)) ].

(** ** [PostSerializer] *)

Section PostSerializer.

(** [Post.is_already_liked], from [Posts/models.py]. *)
Variable is_already_liked : Post -> user_object -> bool.

(** [context] is the serializer's [self.context.get('request')]: [None]
    when the serializer was built without a request. *)
Definition get_is_liked (context : option Request) (obj : Post) : result bool :=
  match context with
  | None => Raise AttributeError
  | Some request =>
      let user := user request in
      if is_anonymous user then Ok false
      else Ok (is_already_liked obj user)
  end.

End PostSerializer.

(** ** Sample data

    Three accounts and the collaborators of the view set at simple values:
    a request without filter parameters, the owner-only object permission, a
    transparent hasher, a serializer that requires its two fields, and a
    registration that appends the account it is given. *)

Module Fixture.

Definition account (k : Z) (name : string) : User :=
  {| id := k; username := name; email := name ++ "@example.org";
     password := "plain$secret"; is_active := true;
     last_login := None; last_request := None |}.

Definition alice : User := account 5 "alice".
Definition bob : User := account 7 "bob".
Definition carol : User := account 9 "carol".

Definition edge (a b : User) : UserFriends :=
  {| user_id := id a; friend_id := id b |}.

Definition a_post : Post :=
  {| post_id := 1; author := id alice; content := "hello";
     liked_by := [id bob] |}.

Definition store (rows : list UserFriends) : DB :=
  {| users := [carol; alice; bob]; user_friends := rows; posts := [a_post] |}.

Definition request_of (o : user_object) : Request :=
  {| user := o; data := []; page_number := 1 |}.

Definition form (o : user_object) (fields : list (string * string)) : Request :=
  {| user := o; data := fields; page_number := 1 |}.

Definition unfiltered (request : Request) (queryset : list User) : list User :=
  queryset.

Definition owner_permission (request : Request) : bool := true.

Definition owner_object_permission (request : Request) (obj : User) : bool :=
  match user request with
  | Account u => id u =? id obj
  | AnonymousUser => false
  end.

Definition make_password (raw : string) : string := "plain$" ++ raw.

Definition check_password (raw encoded : string) : bool :=
  String.eqb encoded (make_password raw).

Definition supplied (fields : list (string * string)) (key : string) : bool :=
  match getitem fields key with
  | Ok v => negb (String.eqb v "")
  | Raise _ => false
  end.

(** Modelled from the spec: [ChangePasswordSerializer]
    ([Accounts/serializers.py] is outside the two files).  Section 4.3: the
    caller supplies the current password, and the view reads the new one;
    both fields are required. *)
Definition is_valid (fields : list (string * string)) : bool :=
  supplied fields "old_password" && supplied fields "new_password".

Definition errors (fields : list (string * string))
  : list (string * list string) :=
  map (fun key => (key, ["This field is required."]))
    (filter (fun key => negb (supplied fields key))
       ["old_password"; "new_password"]).

Definition register (request : Request) : M Response :=
  let u := account 11 "dave" in
  modify (fun db => with_users db (users db ++ [u])) ;;;
  ret (mkResponse (Created u) (Some 201)).

End Fixture.

(** ** [LoginView] *)

Module LoginView.

Section Post.

(** [UserLoginSerializer]: [is_valid()] and [errors] on the submitted
    form. *)
Variable serializer_is_valid : list (string * string) -> bool.
Variable serializer_errors :
  list (string * string) -> list (string * list string).

(** [django.contrib.auth.authenticate] and [login]: the account the
    credentials belong to, if any, and the opening of the session. *)
Variable authenticate : Request -> string -> string -> M (option User).
Variable login : Request -> User -> M unit.

Definition post (request : Request) : M Response :=
  email <- lift (getitem (data request) "email") ;;
  password <- lift (getitem (data request) "password") ;;
  if negb (serializer_is_valid (data request)) then
    ret (mkResponse (Errors (serializer_errors (data request)))
           (Some HTTP_400_BAD_REQUEST))
  else
    user <- authenticate request email password ;;
    match user with
    | Some u =>
        login request u ;;;
        ret (mkResponse (Status "success" "logged in") (Some HTTP_200_OK))
    | None =>
        ret (mkResponse (Status "error" "wrong email or password")
               (Some HTTP_400_BAD_REQUEST))
    end.

End Post.

End LoginView.

(** ** [UsersViewSet] *)

Section UsersViewSet.

(** The filter backends of the view set ([DjangoFilterBackend] with
    [UsersFilter], [SearchFilter], [OrderingFilter]), as a function of the
    request's query. *)
Variable filter_queryset : Request -> list User -> list User.

(** [IsProfileOwnerOrAdmin], from [Accounts/permissions.py]. *)
Variable owner_has_permission : Request -> bool.
Variable owner_has_object_permission : Request -> User -> bool.

(** The page size of the configured page-number paginator, [None] when the
    project configures no pagination. *)
Variable page_size : option nat.

(** The password hasher: [make_password raw] and
    [check_password raw encoded]. *)
Variable make_password : string -> string.
Variable check_password : string -> string -> bool.

(** [ChangePasswordSerializer]: [is_valid()] and [errors] on the
    submitted form. *)
Variable serializer_is_valid : list (string * string) -> bool.
Variable serializer_errors :
  list (string * string) -> list (string * list string).

(** [ModelViewSet.create], the registration the framework performs. *)
Variable super_create : Request -> M Response.

(** *** Permission checks *)

Definition has_permission (p : permission) (request : Request) : bool :=
  match p with
  | AllowAny => true
  | IsAuthenticated => is_authenticated (user request)
  | IsProfileOwnerOrAdmin => owner_has_permission request
  end.

Definition has_object_permission (p : permission) (request : Request)
    (obj : User) : bool :=
  match p with
  | IsProfileOwnerOrAdmin => owner_has_object_permission request obj
  | _ => true
  end.

Definition permission_denied {A} (request : Request) : M A :=
  if is_authenticated (user request) then raise PermissionDenied
  else raise NotAuthenticated.

Definition check_permissions (perms : list permission) (request : Request)
  : M unit :=
  if forallb (fun p => has_permission p request) perms then ret tt
  else permission_denied request.

Definition check_object_permissions (perms : list permission)
    (request : Request) (obj : User) : M unit :=
  if forallb (fun p => has_object_permission p request obj) perms then ret tt
  else permission_denied request.

(** The permission classes of an action: those of its [@action] decorator,
    else those of the class. *)
Definition get_permissions (action : string) : list permission :=
  if String.eqb action "change_password" || String.eqb action "activity" then
    [IsAuthenticated; IsProfileOwnerOrAdmin]
  else if String.eqb action "add_friend" || String.eqb action "remove_friend"
          || String.eqb action "friends" || String.eqb action "followers"
          || String.eqb action "followed" then
    [IsAuthenticated]
  else [AllowAny; IsProfileOwnerOrAdmin].

(** A request reaches the handler of its action once the permissions of the
    action let it through. *)
Definition dispatch {A} (action : string) (request : Request) (handler : M A)
  : M A :=
  check_permissions (get_permissions action) request ;;;
  handler.

(** *** The methods of the class *)

(** [User.objects.filter(is_active=True).order_by('username')] *)
Definition get_queryset (db : DB) : list User :=
  order_by_username (filter is_active (users db)).

(** ['me'] is the caller; any other key is looked up in the filtered
    queryset (404 when it names no row there) and checked against the
    object permissions of the action. *)
Definition get_object (action : string) (request : Request) (pk : Py.value)
  : M user_object :=
  if Py.eq pk (Py.Str "me") then ret (user request)
  else
    queryset <- gets (fun db => filter_queryset request (get_queryset db)) ;;
    match to_key pk with
    | Raise _ => raise Http404
    | Ok k =>
        match filter (fun u => id u =? k) queryset with
        | [] => raise Http404
        | [obj] =>
            check_object_permissions (get_permissions action) request obj ;;;
            ret (Account obj)
        | _ :: _ :: _ => raise MultipleObjectsReturned
        end
    end.

Definition create (request : Request) : M Response :=
  if negb (is_anonymous (user request)) then
    ret (mkResponse (Status "error" "you already signed up") None)
  else super_create request.

Definition destroy (request : Request) (pk : Py.value) : M Response :=
  instance <- get_object "destroy" request pk ;;
  match instance with
  | AnonymousUser => raise NotImplementedError
  | Account u =>
      save (set_is_active u false) ;;;
      ret (mkResponse (Status "success" "Account is not active now")
             (Some HTTP_200_OK))
  end.

Definition change_password (request : Request) (pk : Py.value) : M Response :=
  instance <- get_object "change_password" request pk ;;
  if serializer_is_valid (data request) then
    old_password <- lift (getitem (data request) "old_password") ;;
    match instance with
    | AnonymousUser => raise NotImplementedError
    | Account u =>
        if negb (check_password old_password (password u)) then
          ret (mkResponse (Errors [("old_password", ["Wrong password."])])
                 (Some HTTP_400_BAD_REQUEST))
        else
          new_password <- lift (getitem (data request) "new_password") ;;
          save (set_password_hash u (make_password new_password)) ;;;
          ret (mkResponse (Status "success" "Password updated successfully")
                 None)
    end
  else
    ret (mkResponse (Errors (serializer_errors (data request)))
           (Some HTTP_400_BAD_REQUEST)).

Definition add_friend (request : Request) (pk : Py.value) : M Response :=
  if Py.eq pk (Py.Str "me") || Py.eq pk (id_of (user request)) then
    ret (mkResponse (Status "error" "you can't befriend yourself") None)
  else
    friends <- get_or_create (user request) pk ;;
    if snd friends then
      ret (mkResponse (Status "success" "friend added") None)
    else
      ret (mkResponse (Status "error" "user already your friend") None).

Definition remove_friend (request : Request) (pk : Py.value) : M Response :=
  if Py.eq pk (Py.Str "me") || Py.eq pk (id_of (user request)) then
    ret (mkResponse (Status "error" "you can't remove yourself from friends")
           None)
  else
    friends <- filter_delete (user request) pk ;;
    if negb (fst friends =? 0)%nat then
      ret (mkResponse (Status "success" "friend removed") None)
    else
      ret (mkResponse (Status "error" "user is not your friend") None).

Fixpoint _filter_serializer (serializer : list dict) (filter_key : string)
  : result (list dict) :=
  match serializer with
  | [] => Ok []
  | user :: rest =>
      match getitem user filter_key with
      | Raise e => Raise e
      | Ok flag =>
          match _filter_serializer rest filter_key with
          | Raise e => Raise e
          | Ok data => Ok (if Py.truth flag then user :: data else data)
          end
      end
  end.

(** [paginate_queryset]: no page without a paginator; otherwise the
    requested page of [page_size] rows, 404 when the page number is out of
    range (an empty first page is allowed). *)
Definition paginate_queryset (request : Request) (queryset : list User)
  : M (option Page) :=
  match page_size with
  | None | Some O => ret None
  | Some n =>
      let count := List.length queryset in
      let pages := Nat.max 1 ((count + n - 1) / n) in
      let p := page_number request in
      if ((1 <=? p) && (p <=? pages))%nat then
        ret (Some {| object_list := firstn n (skipn ((p - 1) * n) queryset);
                     number := p;
                     paginator_count := count;
                     num_pages := pages |})
      else raise NotFound
  end.

Definition get_paginated_response (page : Page) (data : list dict) : Response :=
  mkResponse
    (Paginated (paginator_count page)
       (if (number page <? num_pages page)%nat then Some (number page + 1)%nat
        else None)
       (if (1 <? number page)%nat then Some (number page - 1)%nat else None)
       data)
    None.

(** [get_serializer(objs, many=True).data] in a list action. *)
Definition get_serializer (request : Request) (objs : list User)
  : M (list dict) :=
  gets (fun db => map (to_representation db (user request)) objs).

(** The result is a paginated response or, without a paginator, the bare
    list. *)
Definition _list_response (request : Request) (serializer_filter : string)
  : M (Response + list dict) :=
  queryset <- gets (fun db => filter_queryset request (get_queryset db)) ;;
  page <- paginate_queryset request queryset ;;
  match page with
  | Some pg =>
      serializer <- get_serializer request (object_list pg) ;;
      data <- lift (_filter_serializer serializer serializer_filter) ;;
      ret (inl (get_paginated_response pg data))
  | None =>
      serializer <- get_serializer request queryset ;;
      data <- lift (_filter_serializer serializer serializer_filter) ;;
      ret (inr data)
  end.

Definition friends (request : Request) : M Response :=
  data <- _list_response request "is_friends" ;;
  match data with
  | inl response => ret response
  | inr l => ret (mkResponse (Listing l) None)
  end.

Definition followers (request : Request) : M Response :=
  data <- _list_response request "is_follower" ;;
  match data with
  | inl response => ret response
  | inr l => ret (mkResponse (Listing l) None)
  end.

Definition followed (request : Request) : M Response :=
  data <- _list_response request "is_followed" ;;
  match data with
  | inl response => ret response
  | inr l => ret (mkResponse (Listing l) None)
  end.

(** The relationship view that a gating key selects. *)
Definition relationship_view (key : string) (request : Request) : M Response :=
  if String.eqb key "is_friends" then friends request
  else if String.eqb key "is_follower" then followers request
  else followed request.

(** *** Vocabulary of the properties *)

(** The three keys that gate a relationship view. *)
Definition gating_key (key : string) : Prop :=
  key = "is_friends" \/ key = "is_follower" \/ key = "is_followed".

(** The rows a list action keeps, out of the candidates it evaluates. *)
Definition kept_rows (db : DB) (request : Request) (key : string)
    (page : option Page) : list dict :=
  filter (flag_of key)
    (map (to_representation db (user request))
       (candidates page (filter_queryset request (get_queryset db)))).

(** The store with the [is_active] flag of the user with the key of [u]
    set to false. *)
Definition deactivate (u : User) (db : DB) : DB :=
  with_users db
    (map (fun r => if id r =? id u then set_is_active r false else r)
       (users db)).

(** The constraints of the tables: the primary key of the users and the
    uniqueness of the pair (user, friend). *)
Definition constraints (db : DB) : Prop :=
  NoDup (map id (users db)) /\ NoDup (user_friends db).

(** The numbers a 64-bit key column can be asked for. *)
Definition key_in_range (k : Z) : Prop := - 2 ^ 63 <= k < 2 ^ 63.

(** The order of the queryset. *)
Definition by_username (u v : User) : Prop :=
  String.leb (username u) (username v) = true.

(** A serialized object carries the key. *)
Definition has_key (key : string) (d : dict) : bool :=
  match getitem d key with
  | Ok _ => true
  | Raise _ => false
  end.

(** The same request for another page. *)
Definition with_page (request : Request) (p : nat) : Request :=
  {| user := user request; data := data request; page_number := p |}.

(** The rows an outcome lists, none when it is an exception. *)
Definition listed {S : Type} (outcome : result Response * S) : list dict :=
  match fst outcome with
  | Ok response => results_of response
  | Raise _ => []
  end.

(** The number of pages of a queryset of [count] rows, [size] rows a page. *)
Definition pages_of (count size : nat) : nat :=
  Nat.max 1 ((count + size - 1) / size).

(** ** Properties *)

Set Default Proof Using "Type".

(** *** The store primitives *)

Ltac run := cbv [bind ret raise lift gets modify].

Lemma with_user_friends_same (db : DB) :
  with_user_friends db (user_friends db) = db.
Proof. now destruct db. Qed.

Lemma is_edge_spec (a b : Z) (r : UserFriends) :
  is_edge a b r = true <-> r = {| user_id := a; friend_id := b |}.
Proof.
  unfold is_edge. destruct r as [x y]. simpl. split.
  - intros H. apply andb_true_iff in H. destruct H as [Hx Hy].
    apply Z.eqb_eq in Hx, Hy. now subst.
  - intros H. inversion H. now rewrite !Z.eqb_refl.
Qed.

Lemma filter_none {A} (f : A -> bool) (l : list A) :
  existsb f l = false -> filter f l = [].
Proof.
  induction l as [|x l IH]; simpl; [easy|].
  intros H. apply orb_false_iff in H. destruct H as [Hx Hl].
  rewrite Hx. now apply IH.
Qed.

Lemma filter_out_none {A} (f : A -> bool) (l : list A) :
  existsb f l = false -> filter (fun x => negb (f x)) l = l.
Proof.
  induction l as [|x l IH]; simpl; [easy|].
  intros H. apply orb_false_iff in H. destruct H as [Hx Hl].
  rewrite Hx. simpl. f_equal. now apply IH.
Qed.

Lemma existsb_filter_out {A} (f : A -> bool) (l : list A) :
  existsb f (filter (fun x => negb (f x)) l) = false.
Proof.
  induction l as [|x l IH]; simpl; [easy|].
  destruct (f x) eqn:Hx; simpl; [easy|]. now rewrite Hx.
Qed.

(** Under the uniqueness of the pair, an edge that is present is matched by
    exactly one row. *)
Lemma filter_edge_unique (a b : Z) (rows : list UserFriends) :
  NoDup rows -> existsb (is_edge a b) rows = true ->
  filter (is_edge a b) rows = [{| user_id := a; friend_id := b |}].
Proof.
  induction rows as [|r rows IH]; simpl; [easy|].
  intros Hnd Hex. inversion Hnd as [|? ? Hnotin Hnd']; subst.
  destruct (is_edge a b r) eqn:Hr.
  - apply is_edge_spec in Hr. subst r. f_equal.
    apply filter_none. destruct (existsb (is_edge a b) rows) eqn:Hrest; [|easy].
    exfalso. apply existsb_exists in Hrest. destruct Hrest as [r' [Hin Hr']].
    apply is_edge_spec in Hr'. now subst r'.
  - simpl in Hex. now apply IH.
Qed.

Lemma follows_after_append (db : DB) (r : UserFriends) (x y : Z) :
  follows (with_user_friends db (user_friends db ++ [r])) x y
  = follows db x y || is_edge x y r.
Proof.
  unfold follows. simpl. rewrite existsb_app. simpl. now rewrite orb_false_r.
Qed.

Lemma follows_after_delete (db : DB) (a b x y : Z) :
  follows
    (with_user_friends db
       (filter (fun r => negb (is_edge a b r)) (user_friends db))) x y
  = follows db x y && negb ((x =? a) && (y =? b)).
Proof.
  unfold follows. simpl. destruct ((x =? a) && (y =? b)) eqn:Hxy; simpl.
  - apply andb_true_iff in Hxy. destruct Hxy as [Hx Hy].
    apply Z.eqb_eq in Hx, Hy. subst x y.
    rewrite andb_false_r. apply existsb_filter_out.
  - rewrite andb_true_r.
    induction (user_friends db) as [|r rows IH]; simpl; [easy|].
    destruct (is_edge a b r) eqn:Hab; simpl; rewrite IH; [|easy].
    destruct (is_edge x y r) eqn:Hr; [|easy].
    apply is_edge_spec in Hab, Hr. rewrite Hab in Hr. inversion Hr; subst.
    now rewrite !Z.eqb_refl in Hxy.
Qed.

(** A key that names another user passes the self-reference guard. *)
Lemma guard_passes (pk : Py.value) (me : User) (b : Z) :
  to_key pk = Ok b -> b <> id me ->
  Py.eq pk (Py.Str "me") || Py.eq pk (id_of (Account me)) = false.
Proof.
  intros Hk Hne. destruct pk as [|s|n|c]; simpl in *.
  - discriminate.
  - rewrite orb_false_r. destruct (String.eqb s "me") eqn:Hs; [|easy].
    apply String.eqb_eq in Hs. subst s. discriminate.
  - inversion Hk; subst. now apply Z.eqb_neq.
  - inversion Hk; subst. now apply Z.eqb_neq.
Qed.

Lemma user_exists_in (db : DB) (u : User) :
  In u (users db) -> user_exists db (id u) = true.
Proof.
  intros Hin. apply existsb_exists. exists u. split; [easy|apply Z.eqb_refl].
Qed.

Lemma get_or_create_absent (db : DB) (u : User) (pk : Py.value) (b : Z) :
  to_key pk = Ok b -> follows db (id u) b = false ->
  user_exists db (id u) = true -> user_exists db b = true ->
  let r := {| user_id := id u; friend_id := b |} in
  get_or_create (Account u) pk db
  = (Ok (r, true), with_user_friends db (user_friends db ++ [r])).
Proof.
  intros Hk Hab Hu Hb. unfold get_or_create. run. rewrite Hk.
  unfold follows in Hab. rewrite (filter_none _ _ Hab). now rewrite Hu, Hb.
Qed.

Lemma get_or_create_present (db : DB) (u : User) (pk : Py.value) (b : Z) :
  to_key pk = Ok b -> follows db (id u) b = true ->
  NoDup (user_friends db) ->
  get_or_create (Account u) pk db
  = (Ok ({| user_id := id u; friend_id := b |}, false), db).
Proof.
  intros Hk Hab Hnd. unfold get_or_create. run. rewrite Hk.
  now rewrite (filter_edge_unique _ _ _ Hnd Hab).
Qed.

Lemma filter_delete_run (db : DB) (u : User) (pk : Py.value) (b : Z) :
  to_key pk = Ok b ->
  exists counts,
    filter_delete (Account u) pk db
    = (Ok (List.length (filter (is_edge (id u) b) (user_friends db)), counts),
       with_user_friends db
         (filter (fun r => negb (is_edge (id u) b r)) (user_friends db))).
Proof.
  intros Hk. unfold filter_delete. run. rewrite Hk.
  rewrite partition_as_filter.
  destruct (filter (is_edge (id u) b) (user_friends db)); eexists; reflexivity.
Qed.

Lemma length_filter_zero {A} (f : A -> bool) (l : list A) :
  (List.length (filter f l) =? 0)%nat = negb (existsb f l).
Proof.
  induction l as [|x l IH]; simpl; [easy|]. now destruct (f x).
Qed.

(** The four outcomes of the two edge operations on a key that names
    another user. *)
Lemma add_friend_absent (db : DB) (request : Request) (a : User)
    (pk : Py.value) (b : Z) :
  user request = Account a -> to_key pk = Ok b -> b <> id a ->
  user_exists db (id a) = true -> user_exists db b = true ->
  follows db (id a) b = false ->
  add_friend request pk db
  = (Ok (mkResponse (Status "success" "friend added") None),
     with_user_friends db
       (user_friends db ++ [{| user_id := id a; friend_id := b |}])).
Proof.
  intros Hu Hk Hne Ha Hb Hab. unfold add_friend. rewrite Hu.
  rewrite (guard_passes _ _ _ Hk Hne). unfold bind.
  now rewrite (get_or_create_absent _ _ _ _ Hk Hab Ha Hb).
Qed.

Lemma add_friend_present (db : DB) (request : Request) (a : User)
    (pk : Py.value) (b : Z) :
  user request = Account a -> to_key pk = Ok b -> b <> id a ->
  NoDup (user_friends db) -> follows db (id a) b = true ->
  add_friend request pk db
  = (Ok (mkResponse (Status "error" "user already your friend") None), db).
Proof.
  intros Hu Hk Hne Hnd Hab. unfold add_friend. rewrite Hu.
  rewrite (guard_passes _ _ _ Hk Hne). unfold bind.
  now rewrite (get_or_create_present _ _ _ _ Hk Hab Hnd).
Qed.

Lemma remove_friend_present (db : DB) (request : Request) (a : User)
    (pk : Py.value) (b : Z) :
  user request = Account a -> to_key pk = Ok b -> b <> id a ->
  follows db (id a) b = true ->
  remove_friend request pk db
  = (Ok (mkResponse (Status "success" "friend removed") None),
     with_user_friends db
       (filter (fun r => negb (is_edge (id a) b r)) (user_friends db))).
Proof.
  intros Hu Hk Hne Hab. unfold remove_friend. rewrite Hu.
  rewrite (guard_passes _ _ _ Hk Hne). unfold bind.
  destruct (filter_delete_run db a pk b Hk) as [counts ->]. simpl.
  rewrite length_filter_zero. unfold follows in Hab. now rewrite Hab.
Qed.

Lemma remove_friend_absent (db : DB) (request : Request) (a : User)
    (pk : Py.value) (b : Z) :
  user request = Account a -> to_key pk = Ok b -> b <> id a ->
  follows db (id a) b = false ->
  remove_friend request pk db
  = (Ok (mkResponse (Status "error" "user is not your friend") None), db).
Proof.
  intros Hu Hk Hne Hab. unfold remove_friend. rewrite Hu.
  rewrite (guard_passes _ _ _ Hk Hne). unfold bind.
  destruct (filter_delete_run db a pk b Hk) as [counts ->]. simpl.
  rewrite length_filter_zero. unfold follows in Hab. rewrite Hab. simpl.
  rewrite (filter_out_none _ _ Hab). now rewrite with_user_friends_same.
Qed.

(** The store after the two edge operations, whatever their outcome. *)
Lemma add_friend_store (db : DB) (request : Request) (a : User)
    (pk : Py.value) (b : Z) :
  user request = Account a -> to_key pk = Ok b ->
  let r := {| user_id := id a; friend_id := b |} in
  snd (add_friend request pk db) = db
  \/ (follows db (id a) b = false
      /\ snd (add_friend request pk db)
         = with_user_friends db (user_friends db ++ [r])).
Proof.
  intros Hu Hk r. unfold add_friend. rewrite Hu.
  destruct (Py.eq pk (Py.Str "me") || Py.eq pk (id_of (Account a)));
    [now left|].
  unfold get_or_create. run. rewrite Hk.
  destruct (filter (is_edge (id a) b) (user_friends db)) as [|r1 [|r2 l]] eqn:Hf.
  - destruct (user_exists db (id a) && user_exists db b); [|now left].
    right. split; [|easy]. unfold follows.
    destruct (existsb (is_edge (id a) b) (user_friends db)) eqn:Hex; [|easy].
    apply existsb_exists in Hex. destruct Hex as [x [Hin Hx]].
    assert (Hx' : In x (filter (is_edge (id a) b) (user_friends db)))
      by (apply filter_In; now split).
    rewrite Hf in Hx'. destruct Hx'.
  - now left.
  - now left.
Qed.

Lemma remove_friend_store (db : DB) (request : Request) (a : User)
    (pk : Py.value) (b : Z) :
  user request = Account a -> to_key pk = Ok b -> b <> id a ->
  snd (remove_friend request pk db)
  = with_user_friends db
      (filter (fun r => negb (is_edge (id a) b r)) (user_friends db)).
Proof.
  intros Hu Hk Hne. destruct (follows db (id a) b) eqn:Hab.
  - now rewrite (remove_friend_present _ _ _ _ _ Hu Hk Hne Hab).
  - rewrite (remove_friend_absent _ _ _ _ _ Hu Hk Hne Hab). simpl.
    unfold follows in Hab. rewrite (filter_out_none _ _ Hab).
    now rewrite with_user_friends_same.
Qed.

(** The uniqueness of the pair is an invariant of the two operations. *)
Lemma add_friend_keeps_unique (db : DB) (request : Request) (a : User)
    (pk : Py.value) (b : Z) :
  user request = Account a -> to_key pk = Ok b ->
  NoDup (user_friends db) ->
  NoDup (user_friends (snd (add_friend request pk db))).
Proof.
  intros Hu Hk Hnd.
  destruct (add_friend_store db request a pk b Hu Hk) as [-> | [Hab ->]];
    [easy|].
  simpl. apply NoDup_app; [easy|repeat constructor; easy|].
  intros x Hx [<- | []]. unfold follows in Hab.
  assert (Hex : existsb (is_edge (id a) b) (user_friends db) = true).
  { apply existsb_exists. eexists. split; [exact Hx|]. now apply is_edge_spec. }
  congruence.
Qed.

Lemma remove_friend_keeps_unique (db : DB) (request : Request) (a : User)
    (pk : Py.value) (b : Z) :
  user request = Account a -> to_key pk = Ok b -> b <> id a ->
  NoDup (user_friends db) ->
  NoDup (user_friends (snd (remove_friend request pk db))).
Proof.
  intros Hu Hk Hne Hnd. rewrite (remove_friend_store _ _ _ _ _ Hu Hk Hne).
  simpl. now apply NoDup_filter.
Qed.

(** *** The edge operations *)

(** C3.  For distinct users A and B, with the caller A and a key that
    resolves to B: [add_friend] answers "friend added" exactly when the edge
    (A,B) was absent and "user already your friend" when it was present,
    [remove_friend] answers "friend removed" exactly when the edge was
    present and "user is not your friend" when it was absent; a second call
    of the same operation right after the first gets the other answer. *)
Theorem add_remove_report (db : DB) (request : Request) (a b : User)
    (pk : Py.value) :
  user request = Account a ->
  In a (users db) -> In b (users db) -> id a <> id b ->
  to_key pk = Ok (id b) ->
  NoDup (user_friends db) ->
  let added := mkResponse (Status "success" "friend added") None in
  let existed := mkResponse (Status "error" "user already your friend") None in
  let removed := mkResponse (Status "success" "friend removed") None in
  let missing := mkResponse (Status "error" "user is not your friend") None in
  (if follows db (id a) (id b)
   then add_friend request pk db = (Ok existed, db)
   else exists db',
       add_friend request pk db = (Ok added, db')
       /\ follows db' (id a) (id b) = true
       /\ add_friend request pk db' = (Ok existed, db'))
  /\
  (if follows db (id a) (id b)
   then exists db',
       remove_friend request pk db = (Ok removed, db')
       /\ follows db' (id a) (id b) = false
       /\ remove_friend request pk db' = (Ok missing, db')
   else remove_friend request pk db = (Ok missing, db)).
Proof.
  intros Hu Ha Hb Hne Hk Hnd added existed removed missing.
  assert (Hne' : id b <> id a) by congruence.
  apply user_exists_in in Ha, Hb.
  destruct (follows db (id a) (id b)) eqn:Hab; split.
  - now apply add_friend_present with (a := a) (b := id b).
  - eexists. split;
      [now apply remove_friend_present with (a := a) (b := id b)|].
    assert (Hgone :
      follows
        (with_user_friends db
           (filter (fun r => negb (is_edge (id a) (id b) r)) (user_friends db)))
        (id a) (id b) = false).
    { rewrite follows_after_delete. now rewrite !Z.eqb_refl, andb_false_r. }
    split; [exact Hgone|].
    now apply remove_friend_absent with (a := a) (b := id b).
  - eexists. split;
      [now apply add_friend_absent with (a := a) (b := id b)|].
    assert (Hnow :
      follows
        (with_user_friends db
           (user_friends db ++ [{| user_id := id a; friend_id := id b |}]))
        (id a) (id b) = true).
    { rewrite follows_after_append. unfold is_edge. simpl.
      now rewrite !Z.eqb_refl, orb_true_r. }
    split; [exact Hnow|].
    apply add_friend_present with (a := a) (b := id b); try easy.
    simpl. apply NoDup_app; [easy|repeat constructor; easy|].
    intros x Hx [<- | []].
    assert (Hex : existsb (is_edge (id a) (id b)) (user_friends db) = true).
    { apply existsb_exists. eexists. split; [exact Hx|]. now apply is_edge_spec. }
    unfold follows in Hab. congruence.
  - now apply remove_friend_absent with (a := a) (b := id b).
Qed.

(** C4, as the code has it.  For distinct users A and B, the "already
    exists" outcome of [add_friend] and the "does not exist" outcome of
    [remove_friend] come back with HTTP status 200 and an informational
    message, the store unchanged, and with the body's status field set to
    "error". *)
Theorem duplicate_and_missing_edge_report (db : DB) (request : Request)
    (a b : User) (pk : Py.value) :
  user request = Account a -> id a <> id b ->
  to_key pk = Ok (id b) ->
  NoDup (user_friends db) ->
  (follows db (id a) (id b) = true ->
   exists response,
     add_friend request pk db = (Ok response, db)
     /\ status_code response = HTTP_200_OK
     /\ status_of response = Some "error"
     /\ message_of response = Some "user already your friend")
  /\
  (follows db (id a) (id b) = false ->
   exists response,
     remove_friend request pk db = (Ok response, db)
     /\ status_code response = HTTP_200_OK
     /\ status_of response = Some "error"
     /\ message_of response = Some "user is not your friend").
Proof.
  intros Hu Hne Hk Hnd. assert (Hne' : id b <> id a) by congruence. split.
  - intros Hab. eexists. split.
    + now apply add_friend_present with (a := a) (b := id b).
    + easy.
  - intros Hab. eexists. split.
    + now apply remove_friend_absent with (a := a) (b := id b).
    + easy.
Qed.

(** C6.  For distinct users A and B, with the caller A and a key that
    resolves to B: [remove_friend] removes the rows of the edge (A,B) and no
    other row, [add_friend] adds at most the row (A,B) and removes none;
    every edge other than (A,B), the reverse edge (B,A) among them, is
    present afterwards exactly when it was before, and the tables of users
    and posts are untouched. *)
Theorem edge_operations_touch_one_edge (db : DB) (request : Request)
    (a b : User) (pk : Py.value) :
  user request = Account a -> id a <> id b ->
  to_key pk = Ok (id b) ->
  let the_edge := {| user_id := id a; friend_id := id b |} in
  let after_add := snd (add_friend request pk db) in
  let after_remove := snd (remove_friend request pk db) in
  (forall r, In r (user_friends after_remove)
             <-> In r (user_friends db) /\ r <> the_edge)
  /\ (forall r, In r (user_friends db) -> In r (user_friends after_add))
  /\ (forall r, In r (user_friends after_add)
                -> In r (user_friends db) \/ r = the_edge)
  /\ (forall x y, (x, y) <> (id a, id b) ->
        follows after_add x y = follows db x y
        /\ follows after_remove x y = follows db x y)
  /\ follows after_add (id b) (id a) = follows db (id b) (id a)
  /\ follows after_remove (id b) (id a) = follows db (id b) (id a)
  /\ users after_add = users db /\ posts after_add = posts db
  /\ users after_remove = users db /\ posts after_remove = posts db.
Proof.
  intros Hu Hne Hk the_edge after_add after_remove.
  assert (Hne' : id b <> id a) by congruence.
  assert (Hrem : after_remove
                 = with_user_friends db
                     (filter (fun r => negb (is_edge (id a) (id b) r))
                        (user_friends db)))
    by now apply remove_friend_store.
  assert (Hadd : after_add = db
                 \/ after_add
                    = with_user_friends db (user_friends db ++ [the_edge])).
  { destruct (add_friend_store db request a pk (id b) Hu Hk) as [H | [_ H]];
      [now left|now right]. }
  assert (Hother : forall x y, (x, y) <> (id a, id b) ->
                               (x =? id a) && (y =? id b) = false).
  { intros x y Hxy. destruct ((x =? id a) && (y =? id b)) eqn:E; [|easy].
    apply andb_true_iff in E. destruct E as [Ex Ey].
    apply Z.eqb_eq in Ex, Ey. now subst. }
  assert (Hframe : forall x y, (x, y) <> (id a, id b) ->
            follows after_add x y = follows db x y
            /\ follows after_remove x y = follows db x y).
  { intros x y Hxy. split.
    - destruct Hadd as [-> | ->]; [easy|]. rewrite follows_after_append.
      unfold is_edge, the_edge. simpl. rewrite (Z.eqb_sym (id a)), (Z.eqb_sym (id b)).
      now rewrite (Hother x y Hxy), orb_false_r.
    - rewrite Hrem, follows_after_delete.
      now rewrite (Hother x y Hxy), andb_true_r. }
  assert (Hrev : (id b, id a) <> (id a, id b)) by (intros E; now inversion E).
  assert (Hrows : forall r, In r (user_friends after_remove)
                            <-> In r (user_friends db) /\ r <> the_edge).
  { intros r. rewrite Hrem. simpl. rewrite filter_In. split.
    - intros [Hin Hr]. split; [easy|]. intros ->.
      unfold the_edge, is_edge in Hr. simpl in Hr.
      now rewrite !Z.eqb_refl in Hr.
    - intros [Hin Hr]. split; [easy|].
      destruct (is_edge (id a) (id b) r) eqn:E; [|easy].
      apply is_edge_spec in E. now subst r. }
  assert (Hkept : forall r, In r (user_friends db)
                            -> In r (user_friends after_add)).
  { intros r Hin. destruct Hadd as [-> | ->]; [easy|]. simpl.
    apply in_or_app. now left. }
  assert (Hnew : forall r, In r (user_friends after_add)
                           -> In r (user_friends db) \/ r = the_edge).
  { intros r Hin. destruct Hadd as [Heq | Heq]; rewrite Heq in Hin; [now left|].
    simpl in Hin. apply in_app_or in Hin.
    destruct Hin as [Hin | [<- | []]]; [now left|now right]. }
  refine (conj Hrows (conj Hkept (conj Hnew (conj Hframe _)))).
  destruct (Hframe _ _ Hrev) as [Hr1 Hr2].
  refine (conj Hr1 (conj Hr2 _)).
  rewrite Hrem. simpl. now destruct Hadd as [-> | ->].
Qed.

(** *** The relationship views *)

Lemma getitem_flag (db : DB) (viewer : user_object) (c : User) (key : string) :
  gating_key key ->
  exists v, getitem (to_representation db viewer c) key = Ok v.
Proof.
  intros [-> | [-> | ->]]; unfold to_representation; simpl; eexists;
    reflexivity.
Qed.

Lemma flag_is_follower (db : DB) (viewer c : User) :
  flag_of "is_follower" (to_representation db (Account viewer) c)
  = follows db (id c) (id viewer).
Proof. reflexivity. Qed.

Lemma flag_is_followed (db : DB) (viewer c : User) :
  flag_of "is_followed" (to_representation db (Account viewer) c)
  = follows db (id viewer) (id c).
Proof. reflexivity. Qed.

Lemma flag_is_friends (db : DB) (viewer : user_object) (c : User) :
  flag_of "is_friends" (to_representation db viewer c)
  = flag_of "is_follower" (to_representation db viewer c)
    && flag_of "is_followed" (to_representation db viewer c).
Proof. reflexivity. Qed.

(** On dictionaries that all carry the key, the loop of
    [_filter_serializer] is a filter. *)
Lemma filter_serializer_filter (l : list dict) (key : string) :
  (forall d, In d l -> exists v, getitem d key = Ok v) ->
  _filter_serializer l key = Ok (filter (flag_of key) l).
Proof.
  induction l as [|d l IH]; simpl; [easy|].
  intros Hall. destruct (Hall d (or_introl eq_refl)) as [v Hv].
  rewrite Hv, IH by (intros d' Hd'; apply Hall; now right).
  assert (Hflag : flag_of key d = Py.truth v) by (unfold flag_of; now rewrite Hv).
  now rewrite Hflag.
Qed.

Lemma filter_serializer_users (db : DB) (viewer : user_object)
    (l : list User) (key : string) :
  gating_key key ->
  _filter_serializer (map (to_representation db viewer) l) key
  = Ok (filter (flag_of key) (map (to_representation db viewer) l)).
Proof.
  intros Hkey. apply filter_serializer_filter. intros d Hd.
  apply in_map_iff in Hd. destruct Hd as [c [<- _]].
  now apply getitem_flag.
Qed.

Lemma paginate_queryset_store (request : Request) (queryset : list User)
    (db : DB) :
  snd (paginate_queryset request queryset db) = db.
Proof.
  unfold paginate_queryset. destruct page_size as [[|n]|]; try easy.
  now destruct ((1 <=? page_number request)
                && (page_number request
                    <=? Nat.max 1 ((List.length queryset + S n - 1) / S n)))%nat.
Qed.

Lemma list_response_run (db : DB) (request : Request) (key : string)
    (page : option Page) :
  gating_key key ->
  paginate_queryset request (filter_queryset request (get_queryset db)) db
  = (Ok page, db) ->
  _list_response request key db
  = (Ok match page with
        | Some pg =>
            inl (get_paginated_response pg (kept_rows db request key page))
        | None => inr (kept_rows db request key page)
        end, db).
Proof.
  intros Hkey Hpage. unfold _list_response, get_serializer, kept_rows. run.
  rewrite Hpage. destruct page as [pg|]; simpl;
    now rewrite (filter_serializer_users _ _ _ _ Hkey).
Qed.

Lemma view_run (db : DB) (request : Request) (key : string)
    (page : option Page) :
  gating_key key ->
  paginate_queryset request (filter_queryset request (get_queryset db)) db
  = (Ok page, db) ->
  exists response,
    relationship_view key request db = (Ok response, db)
    /\ results_of response = kept_rows db request key page.
Proof.
  intros Hkey Hpage.
  assert (Hrun := list_response_run db request key page Hkey Hpage).
  destruct Hkey as [-> | [-> | ->]]; unfold relationship_view; simpl;
    unfold friends, followers, followed, bind; rewrite Hrun;
    destruct page as [pg|]; eexists; split; reflexivity.
Qed.

(** C1.  For a viewer and the candidates of the evaluated page, the three
    views answer, and a candidate is listed by [friends] if and only if he
    follows the viewer and the viewer follows him; the rows [friends] lists
    are those that both [followers] and [followed] list. *)
Theorem friends_iff_both_edges (db : DB) (request : Request) (viewer : User)
    (page : option Page) :
  user request = Account viewer ->
  paginate_queryset request (filter_queryset request (get_queryset db)) db
  = (Ok page, db) ->
  exists in_friends in_followers in_followed,
    friends request db = (Ok in_friends, db)
    /\ followers request db = (Ok in_followers, db)
    /\ followed request db = (Ok in_followed, db)
    /\ (forall c,
          In c (candidates page (filter_queryset request (get_queryset db))) ->
          (In (to_representation db (Account viewer) c) (results_of in_friends)
           <-> follows db (id c) (id viewer) = true
               /\ follows db (id viewer) (id c) = true))
    /\ (forall d,
          In d (results_of in_friends)
          <-> In d (results_of in_followers) /\ In d (results_of in_followed)).
Proof.
  intros Hu Hpage.
  destruct (view_run db request "is_friends" page) as [rf [Hf Hrf]];
    [now left|easy|].
  destruct (view_run db request "is_follower" page) as [rr [Hr Hrr]];
    [right; now left|easy|].
  destruct (view_run db request "is_followed" page) as [rd [Hd Hrd]];
    [right; now right|easy|].
  exists rf, rr, rd. repeat (split; [easy|]).
  rewrite Hrf, Hrr, Hrd. unfold kept_rows. rewrite Hu. split.
  - intros c Hc. rewrite filter_In, flag_is_friends, andb_true_iff.
    rewrite flag_is_follower, flag_is_followed. split; [now intros [_ H]|].
    intros H. split; [|easy]. now apply in_map.
  - intros d. rewrite !filter_In. split.
    + intros [Hin Hflag]. apply in_map_iff in Hin as Hc.
      destruct Hc as [c [<- _]]. rewrite flag_is_friends in Hflag.
      apply andb_true_iff in Hflag. destruct Hflag as [H1 H2].
      now repeat split.
    + intros [[Hin H1] [_ H2]]. split; [easy|].
      apply in_map_iff in Hin as Hc. destruct Hc as [c [<- _]].
      rewrite flag_is_friends. now rewrite H1, H2.
Qed.

(** *** Pagination comes first *)

Lemma paginate_queryset_run (db : DB) (request : Request)
    (queryset : list User) (n : nat) :
  page_size = Some (S n) ->
  (1 <= page_number request)%nat ->
  (page_number request
   <= Nat.max 1 ((List.length queryset + S n - 1) / S n))%nat ->
  paginate_queryset request queryset db
  = (Ok (Some {| object_list :=
                   firstn (S n)
                     (skipn ((page_number request - 1) * S n) queryset);
                 number := page_number request;
                 paginator_count := List.length queryset;
                 num_pages :=
                   Nat.max 1 ((List.length queryset + S n - 1) / S n) |}),
     db).
Proof.
  intros Hsize Hlo Hhi. unfold paginate_queryset. rewrite Hsize.
  apply Nat.leb_le in Hlo, Hhi. now rewrite Hlo, Hhi.
Qed.

Lemma in_page {A} (size start : nat) (l : list A) (x : A) :
  In x (firstn size (skipn start l)) -> In x l.
Proof.
  intros Hx. rewrite <- (firstn_skipn start l). apply in_or_app. right.
  rewrite <- (firstn_skipn size (skipn start l)). apply in_or_app. now left.
Qed.

Lemma candidates_of_page (db db' : DB) (request : Request)
    (queryset : list User) (page : option Page) :
  paginate_queryset request queryset db = (Ok page, db') ->
  incl (candidates page queryset) queryset.
Proof.
  unfold paginate_queryset. destruct page_size as [[|n]|].
  - intros H. inversion H. apply incl_refl.
  - destruct ((1 <=? page_number request)
              && (page_number request
                  <=? Nat.max 1 ((List.length queryset + S n - 1) / S n)))%nat;
      intros H; inversion H. intros x Hx.
    exact (in_page (S n) ((page_number request - 1) * S n) queryset x Hx).
  - intros H. inversion H. apply incl_refl.
Qed.

(** With a paginator of page size [S n] and a page number in range, a
    relationship view answers the rows of the requested page of the whole
    filtered queryset whose gating flag is true, together with the count of
    the whole queryset. *)
Lemma view_filters_the_page (db : DB) (request : Request) (key : string)
    (n : nat) :
  gating_key key ->
  page_size = Some (S n) ->
  let queryset := filter_queryset request (get_queryset db) in
  let page :=
    firstn (S n) (skipn ((page_number request - 1) * S n) queryset) in
  (1 <= page_number request)%nat ->
  (page_number request
   <= Nat.max 1 ((List.length queryset + S n - 1) / S n))%nat ->
  exists response next previous,
    relationship_view key request db = (Ok response, db)
    /\ payload response
       = Paginated (List.length queryset) next previous
           (filter (flag_of key)
              (map (to_representation db (user request)) page))
    /\ (List.length (results_of response) <= S n)%nat.
Proof.
  intros Hkey Hsize queryset page Hlo Hhi.
  assert (Hpage := paginate_queryset_run db request queryset n Hsize Hlo Hhi).
  assert (Hrun := list_response_run db request key _ Hkey Hpage).
  assert (Hshort :
    (List.length
       (filter (flag_of key) (map (to_representation db (user request)) page))
     <= S n)%nat).
  { etransitivity; [apply filter_length_le|]. rewrite length_map.
    apply firstn_le_length. }
  destruct Hkey as [-> | [-> | ->]]; unfold relationship_view; simpl;
    unfold friends, followers, followed, bind; rewrite Hrun;
    do 3 eexists; (split; [reflexivity|]); (split; [reflexivity|]);
    exact Hshort.
Qed.

(** *** Accounts *)

Lemma insert_by_username_in (u x : User) (l : list User) :
  In x (insert_by_username u l) <-> x = u \/ In x l.
Proof.
  induction l as [|v l IH]; simpl.
  - split; intros [H | H]; auto.
  - destruct (String.leb (username u) (username v)); simpl.
    + split; intros [H | H]; auto.
    + rewrite IH. split; [intros [H | [H | H]] | intros [H | [H | H]]]; auto.
Qed.

Lemma order_by_username_in (x : User) (l : list User) :
  In x (order_by_username l) <-> In x l.
Proof.
  induction l as [|u l IH]; simpl; [easy|].
  unfold order_by_username in *. simpl.
  rewrite insert_by_username_in, IH. split; intros [H | H]; auto.
Qed.

Lemma get_queryset_in (db : DB) (u : User) :
  In u (get_queryset db) <-> In u (users db) /\ is_active u = true.
Proof.
  unfold get_queryset. now rewrite order_by_username_in, filter_In.
Qed.

Lemma get_object_store (action : string) (request : Request) (pk : Py.value)
    (db : DB) :
  snd (get_object action request pk db) = db.
Proof.
  unfold get_object, check_object_permissions, permission_denied. run.
  destruct (Py.eq pk (Py.Str "me")); [easy|].
  destruct (to_key pk) as [k|e]; [|easy].
  destruct (filter (fun u => id u =? k)
              (filter_queryset request (get_queryset db))) as [|u [|v l]];
    try easy.
  destruct (forallb (fun p => has_object_permission p request u)
              (get_permissions action)); [easy|].
  now destruct (is_authenticated (user request)).
Qed.

(** The object [get_object] returns is the caller or an active row of the
    table. *)
Lemma get_object_found (action : string) (request : Request) (pk : Py.value)
    (db : DB) (o : user_object) :
  (forall r qs u, In u (filter_queryset r qs) -> In u qs) ->
  fst (get_object action request pk db) = Ok o ->
  o = user request
  \/ exists u, o = Account u /\ In u (users db) /\ is_active u = true.
Proof.
  intros Hsub. unfold get_object, check_object_permissions, permission_denied.
  run. destruct (Py.eq pk (Py.Str "me")).
  - simpl. intros H. inversion H. now left.
  - destruct (to_key pk) as [k|e]; [|easy].
    destruct (filter (fun u => id u =? k)
                (filter_queryset request (get_queryset db)))
      as [|u [|v l]] eqn:Hf; try easy.
    assert (Hin : In u (filter_queryset request (get_queryset db))).
    { assert (H : In u [u]) by now left. rewrite <- Hf in H.
      now apply filter_In in H. }
    apply Hsub, get_queryset_in in Hin.
    destruct (forallb (fun p => has_object_permission p request u)
                (get_permissions action)).
    + simpl. intros H. inversion H. right. now exists u.
    + now destruct (is_authenticated (user request)).
Qed.

Lemma same_key_same_row (l : list User) (r u : User) :
  NoDup (map id l) -> In r l -> In u l -> id r = id u -> r = u.
Proof.
  induction l as [|x l IH]; simpl; [easy|].
  intros Hnd Hr Hu Heq. inversion Hnd as [|? ? Hnotin Hnd']; subst.
  destruct Hr as [-> | Hr], Hu as [-> | Hu]; auto.
  - exfalso. apply Hnotin. rewrite Heq. now apply in_map.
  - exfalso. apply Hnotin. rewrite <- Heq. now apply in_map.
Qed.

(** Saving a changed copy of a stored row rewrites that row alone. *)
Lemma save_changed_row (db : DB) (u : User) (change : User -> User) :
  (forall r, id (change r) = id r) ->
  NoDup (map id (users db)) -> In u (users db) ->
  save (change u) db
  = (Ok tt,
     with_users db
       (map (fun r => if id r =? id u then change r else r) (users db))).
Proof.
  intros Hid Hnd Hin. unfold save, modify. rewrite Hid.
  rewrite (user_exists_in _ _ Hin). do 2 f_equal.
  apply map_ext_in. intros r Hr. destruct (id r =? id u) eqn:E; [|easy].
  apply Z.eqb_eq in E. now rewrite (same_key_same_row _ _ _ Hnd Hr Hin E).
Qed.

Lemma destroy_run (db : DB) (request : Request) (pk : Py.value) (u : User) :
  NoDup (map id (users db)) -> In u (users db) ->
  fst (get_object "destroy" request pk db) = Ok (Account u) ->
  destroy request pk db
  = (Ok (mkResponse (Status "success" "Account is not active now")
           (Some HTTP_200_OK)),
     deactivate u db).
Proof.
  intros Hnd Hin Hobj. unfold destroy, bind.
  assert (Hst := get_object_store "destroy" request pk db).
  destruct (get_object "destroy" request pk db) as [o db1].
  simpl in Hst, Hobj. subst db1 o. cbv beta iota.
  assert (Hsave := save_changed_row db u (fun r => set_is_active r false)
                     (fun r => eq_refl) Hnd Hin).
  cbv beta in Hsave. now rewrite Hsave.
Qed.

Lemma deactivated_not_listed (db : DB) (u r : User) :
  In r (get_queryset (deactivate u db)) ->
  id r <> id u /\ In r (get_queryset db).
Proof.
  rewrite !get_queryset_in. unfold deactivate. simpl. intros [Hin Hact].
  apply in_map_iff in Hin. destruct Hin as [r0 [Hr Hin]].
  destruct (id r0 =? id u) eqn:E.
  - subst r. discriminate.
  - subst r. apply Z.eqb_neq in E. now split.
Qed.

(** The rows of a relationship view are serialized rows of the queryset. *)
Lemma view_results_from_queryset (db db' : DB) (request : Request)
    (key : string) (response : Response) :
  (forall r qs u, In u (filter_queryset r qs) -> In u qs) ->
  gating_key key ->
  relationship_view key request db = (Ok response, db') ->
  forall d, In d (results_of response) ->
    exists c, In c (get_queryset db)
              /\ d = to_representation db (user request) c.
Proof.
  intros Hsub Hkey Hrun d Hd.
  assert (Hst := paginate_queryset_store request
                   (filter_queryset request (get_queryset db)) db).
  destruct (paginate_queryset request
              (filter_queryset request (get_queryset db)) db)
    as [[page|e] db1] eqn:Hpage; simpl in Hst; subst db1.
  - destruct (view_run db request key page Hkey Hpage) as [resp [Hresp Hres]].
    rewrite Hresp in Hrun. inversion Hrun; subst. rewrite Hres in Hd.
    unfold kept_rows in Hd. apply filter_In in Hd. destruct Hd as [Hd _].
    apply in_map_iff in Hd. destruct Hd as [c [<- Hc]].
    exists c. split; [|easy].
    apply Hsub with (r := request).
    now apply (candidates_of_page _ _ _ _ _ Hpage).
  - exfalso. destruct Hkey as [-> | [-> | ->]];
      unfold relationship_view in Hrun; simpl in Hrun;
      unfold friends, followers, followed, _list_response in Hrun;
      unfold bind at 1 2 in Hrun; unfold gets at 1 in Hrun;
      unfold bind at 1 in Hrun; rewrite Hpage in Hrun; discriminate.
Qed.

Lemma destroy_outcome (db db' : DB) (request : Request) (pk : Py.value)
    (response : Response) :
  destroy request pk db = (Ok response, db') ->
  exists u, fst (get_object "destroy" request pk db) = Ok (Account u).
Proof.
  unfold destroy, bind.
  destruct (get_object "destroy" request pk db) as [[[|u]|e] db1];
    try discriminate.
  intros _. now exists u.
Qed.

Lemma destroy_raises (db db' : DB) (request : Request) (pk : Py.value)
    (e : exn) :
  destroy request pk db = (Raise e, db') -> db' = db.
Proof.
  unfold destroy, bind.
  assert (Hst := get_object_store "destroy" request pk db).
  destruct (get_object "destroy" request pk db) as [[[|u]|e'] db1];
    simpl in Hst; subst db1.
  - unfold raise. intros H. now inversion H.
  - unfold save, modify, ret. discriminate.
  - intros H. now inversion H.
Qed.

(** C7.  [destroy] answers for the caller's own account; whenever it
    answers, the store afterwards is the one before with the [is_active]
    flag of one user set to false: the tables of edges and posts are the
    same, every row of the user table is still there with the same key and
    the same other attributes, the rows of other users are unchanged, and
    the user is in no active-user queryset and in no relationship view of
    any viewer.  When it raises, the store is unchanged. *)
Theorem destroy_is_logical (db : DB) (request : Request) (pk : Py.value) :
  (forall r qs u, In u (filter_queryset r qs) -> In u qs) ->
  NoDup (map id (users db)) ->
  (forall u, user request = Account u -> In u (users db)) ->
  (forall u, user request = Account u ->
     destroy request (Py.Str "me") db
     = (Ok (mkResponse (Status "success" "Account is not active now")
              (Some HTTP_200_OK)),
        deactivate u db))
  /\ (forall e db', destroy request pk db = (Raise e, db') -> db' = db)
  /\ (forall response db',
        destroy request pk db = (Ok response, db') ->
        exists u,
          In u (users db)
          /\ user_friends db' = user_friends db
          /\ posts db' = posts db
          /\ map id (users db') = map id (users db)
          /\ In (set_is_active u false) (users db')
          /\ (forall r, In r (users db) -> id r <> id u -> In r (users db'))
          /\ (forall r', In r' (users db') ->
                exists r, In r (users db)
                  /\ id r' = id r /\ username r' = username r
                  /\ email r' = email r /\ password r' = password r
                  /\ last_login r' = last_login r
                  /\ last_request r' = last_request r
                  /\ is_active r'
                     = (if id r =? id u then false else is_active r))
          /\ (forall r, In r (get_queryset db') -> id r <> id u)
          /\ (forall viewer key listed st,
                gating_key key ->
                relationship_view key viewer db' = (Ok listed, st) ->
                forall d, In d (results_of listed) ->
                  exists c, id c <> id u /\ In c (get_queryset db)
                            /\ d = to_representation db' (user viewer) c)).
Proof.
  intros Hsub Hnd Hcaller. split; [|split].
  - intros u Hu. apply destroy_run; [easy|now apply Hcaller|].
    unfold get_object. simpl. now rewrite Hu.
  - intros e db'. apply destroy_raises.
  - intros response db' Hrun.
    destruct (destroy_outcome _ _ _ _ _ Hrun) as [u Hobj].
    assert (Hin : In u (users db)).
    { destruct (get_object_found _ _ _ _ _ Hsub Hobj) as [Ho | [u' [Ho [Hin _]]]].
      - apply Hcaller. now symmetry.
      - now inversion Ho. }
    rewrite (destroy_run db request pk u Hnd Hin Hobj) in Hrun.
    inversion Hrun; subst. exists u. unfold deactivate at 1 2 3 4 5 6. simpl.
    split; [easy|]. split; [easy|]. split; [easy|]. split.
    { rewrite map_map. apply map_ext. intros r. now destruct (id r =? id u). }
    split.
    { apply in_map_iff. exists u. now rewrite Z.eqb_refl. }
    split.
    { intros r Hr Hne. apply in_map_iff. exists r.
      apply Z.eqb_neq in Hne. now rewrite Hne. }
    split.
    { intros r' Hr'. apply in_map_iff in Hr'. destruct Hr' as [r [<- Hr]].
      exists r. split; [easy|]. now destruct (id r =? id u). }
    split.
    { intros r Hr. now apply deactivated_not_listed in Hr. }
    intros viewer key listed st Hkey Hview d Hd.
    destruct (view_results_from_queryset _ _ _ _ _ Hsub Hkey Hview d Hd)
      as [c [Hc ->]].
    apply deactivated_not_listed in Hc. destruct Hc as [Hne Hc].
    now exists c.
Qed.

(** What [change_password] does once [get_object] has answered. *)
Lemma change_password_run (db : DB) (request : Request) (pk : Py.value)
    (o : user_object) :
  fst (get_object "change_password" request pk db) = Ok o ->
  change_password request pk db
  = if serializer_is_valid (data request) then
      match getitem (data request) "old_password", o with
      | Raise e, _ => (Raise e, db)
      | Ok _, AnonymousUser => (Raise NotImplementedError, db)
      | Ok old_password, Account u =>
          if check_password old_password (password u) then
            match getitem (data request) "new_password" with
            | Raise e => (Raise e, db)
            | Ok new_password =>
                (Ok (mkResponse
                       (Status "success" "Password updated successfully") None),
                 snd (save (set_password_hash u (make_password new_password))
                        db))
            end
          else
            (Ok (mkResponse (Errors [("old_password", ["Wrong password."])])
                   (Some HTTP_400_BAD_REQUEST)), db)
      end
    else
      (Ok (mkResponse (Errors (serializer_errors (data request)))
             (Some HTTP_400_BAD_REQUEST)), db).
Proof.
  intros Hobj. unfold change_password, bind.
  assert (Hst := get_object_store "change_password" request pk db).
  destruct (get_object "change_password" request pk db) as [r db1].
  simpl in Hst, Hobj. subst db1 r.
  destruct (serializer_is_valid (data request)); [|easy].
  unfold lift. destruct (getitem (data request) "old_password") as [old|e];
    [|easy].
  destruct o as [|u]; [easy|].
  destruct (check_password old (password u)); [|easy]. simpl.
  now destruct (getitem (data request) "new_password").
Qed.

Lemma change_password_no_object (db : DB) (request : Request)
    (pk : Py.value) (e : exn) :
  fst (get_object "change_password" request pk db) = Raise e ->
  change_password request pk db = (Raise e, db).
Proof.
  intros Hobj. unfold change_password, bind.
  assert (Hst := get_object_store "change_password" request pk db).
  destruct (get_object "change_password" request pk db) as [r db1].
  simpl in Hst, Hobj. now subst db1 r.
Qed.

(** C8, as the code has it.  On a form that passes the serializer,
    [change_password] answers 400 "Wrong password." and leaves the store
    unchanged whenever the supplied current password does not verify
    against the stored hash; on a form that does not pass the serializer it
    answers 400 with the serializer's errors and leaves the store
    unchanged, whatever the current password.  The store changes only when
    the form passes and the supplied current password verifies, and then
    the stored hash of that user, and nothing else, becomes the hash of the
    new password. *)
Theorem change_password_checks_current (db : DB) (request : Request)
    (pk : Py.value) :
  (forall u old,
     fst (get_object "change_password" request pk db) = Ok (Account u) ->
     serializer_is_valid (data request) = true ->
     getitem (data request) "old_password" = Ok old ->
     check_password old (password u) = false ->
     change_password request pk db
     = (Ok (mkResponse (Errors [("old_password", ["Wrong password."])])
              (Some HTTP_400_BAD_REQUEST)), db))
  /\ (forall o,
        fst (get_object "change_password" request pk db) = Ok o ->
        serializer_is_valid (data request) = false ->
        change_password request pk db
        = (Ok (mkResponse (Errors (serializer_errors (data request)))
                 (Some HTTP_400_BAD_REQUEST)), db))
  /\ (forall u old new,
        fst (get_object "change_password" request pk db) = Ok (Account u) ->
        serializer_is_valid (data request) = true ->
        getitem (data request) "old_password" = Ok old ->
        check_password old (password u) = true ->
        getitem (data request) "new_password" = Ok new ->
        NoDup (map id (users db)) -> In u (users db) ->
        exists db',
          change_password request pk db
          = (Ok (mkResponse
                   (Status "success" "Password updated successfully") None),
             db')
          /\ users db'
             = map (fun r => if id r =? id u
                             then set_password_hash r (make_password new)
                             else r) (users db)
          /\ user_friends db' = user_friends db /\ posts db' = posts db)
  /\ (forall outcome db',
        change_password request pk db = (outcome, db') -> db' <> db ->
        exists u old,
          fst (get_object "change_password" request pk db) = Ok (Account u)
          /\ serializer_is_valid (data request) = true
          /\ getitem (data request) "old_password" = Ok old
          /\ check_password old (password u) = true).
Proof.
  split; [|split; [|split]].
  - intros u old Hobj Hvalid Hold Hcheck.
    rewrite (change_password_run _ _ _ _ Hobj).
    now rewrite Hvalid, Hold, Hcheck.
  - intros o Hobj Hvalid.
    rewrite (change_password_run _ _ _ _ Hobj). now rewrite Hvalid.
  - intros u old new Hobj Hvalid Hold Hcheck Hnew Hnd Hin.
    rewrite (change_password_run _ _ _ _ Hobj).
    rewrite Hvalid, Hold, Hcheck, Hnew. eexists. split; [reflexivity|].
    assert (Hsave := save_changed_row db u
                       (fun r => set_password_hash r (make_password new))
                       (fun r => eq_refl) Hnd Hin).
    cbv beta in Hsave. now rewrite Hsave.
  - intros outcome db' Hrun Hchanged.
    destruct (fst (get_object "change_password" request pk db)) as [o|e] eqn:Hobj.
    + rewrite (change_password_run _ _ _ _ Hobj) in Hrun.
      destruct (serializer_is_valid (data request));
        [|inversion Hrun; congruence].
      destruct (getitem (data request) "old_password") as [old|e];
        [|inversion Hrun; congruence].
      destruct o as [|u]; [inversion Hrun; congruence|].
      destruct (check_password old (password u)) eqn:Hcheck;
        [|inversion Hrun; congruence].
      now exists u, old.
    + rewrite (change_password_no_object _ _ _ _ Hobj) in Hrun.
      inversion Hrun; congruence.
Qed.

(** C9.  For a caller who is signed in, [create] answers the error
    "you already signed up" and leaves the store as it is; it hands the
    request to the framework's registration only for the anonymous
    caller, so only such a request can change the store. *)
Theorem create_rejects_signed_in (db : DB) (request : Request) :
  (is_anonymous (user request) = false ->
   create request db
   = (Ok (mkResponse (Status "error" "you already signed up") None), db))
  /\ (is_anonymous (user request) = true ->
      create request db = super_create request db)
  /\ (forall outcome db',
        create request db = (outcome, db') -> db' <> db ->
        is_anonymous (user request) = true).
Proof.
  unfold create. destruct (is_anonymous (user request)); simpl.
  - repeat split; congruence.
  - repeat split; try easy. intros outcome db' H. inversion H. congruence.
Qed.

(** The actions of the relationship model are open to every signed-in
    caller and closed to the anonymous one. *)
Lemma dispatch_signed_in {A} (action : string) (request : Request)
    (handler : M A) (db : DB) :
  get_permissions action = [IsAuthenticated] ->
  dispatch action request handler db
  = if is_anonymous (user request) then (Raise NotAuthenticated, db)
    else handler db.
Proof.
  intros Hperm. unfold dispatch, check_permissions, permission_denied, bind.
  rewrite Hperm. simpl. unfold is_authenticated.
  now destruct (is_anonymous (user request)).
Qed.

(** The guard of the two edge operations stops the reserved key ['me'] and
    the caller's own key when it comes as a number. *)
Lemma guard_stops_me_and_own_number (db : DB) (request : Request) (a : User)
    (pk : Py.value) :
  user request = Account a ->
  pk = Py.Str "me" \/ pk = Py.Int (id a) ->
  add_friend request pk db
  = (Ok (mkResponse (Status "error" "you can't befriend yourself") None), db)
  /\ remove_friend request pk db
     = (Ok (mkResponse (Status "error" "you can't remove yourself from friends")
              None), db).
Proof.
  intros Hu [-> | ->]; unfold add_friend, remove_friend; rewrite Hu; simpl.
  - easy.
  - now rewrite Z.eqb_refl.
Qed.

(** ** Further properties of the view set *)

(** *** The queryset *)

Lemma insert_by_username_hd (v u : User) (l : list User) :
  by_username v u -> HdRel by_username v l ->
  HdRel by_username v (insert_by_username u l).
Proof.
  intros Hvu Hl. destruct l as [|w l]; simpl.
  - now constructor.
  - destruct (String.leb (username u) (username w)); constructor; [easy|].
    now inversion Hl.
Qed.

Lemma insert_by_username_sorted (u : User) (l : list User) :
  Sorted by_username l -> Sorted by_username (insert_by_username u l).
Proof.
  induction l as [|v l IH]; simpl; intros Hs.
  - now repeat constructor.
  - destruct (String.leb (username u) (username v)) eqn:Huv.
    + constructor; [easy|now constructor].
    + inversion Hs as [|? ? Hl Hhd]; subst. constructor; [now apply IH|].
      apply insert_by_username_hd; [|easy]. unfold by_username.
      destruct (String.leb_total (username u) (username v)); congruence.
Qed.

Lemma insert_by_username_perm (u : User) (l : list User) :
  Permutation (insert_by_username u l) (u :: l).
Proof.
  induction l as [|v l IH]; simpl; [easy|].
  destruct (String.leb (username u) (username v)); [easy|].
  rewrite IH. apply perm_swap.
Qed.

(** [get_queryset] answers the active rows of the user table, each as often
    as the table holds it, in ascending order of the user name. *)
Theorem get_queryset_sorted_active (db : DB) :
  Sorted by_username (get_queryset db)
  /\ Permutation (get_queryset db) (filter is_active (users db))
  /\ (forall u, In u (get_queryset db) -> is_active u = true).
Proof.
  split; [|split].
  - unfold get_queryset.
    induction (filter is_active (users db)) as [|u l IH]; simpl.
    + constructor.
    + now apply insert_by_username_sorted.
  - unfold get_queryset.
    induction (filter is_active (users db)) as [|u l IH]; simpl; [easy|].
    unfold order_by_username in *. simpl.
    rewrite insert_by_username_perm. now constructor.
  - intros u Hu. now apply get_queryset_in in Hu.
Qed.

(** *** The loop of [_filter_serializer] *)

Lemma getitem_raises {V : Type} (d : list (string * V)) (key : string)
    (e : exn) :
  getitem d key = Raise e -> e = KeyError.
Proof.
  induction d as [|[k v] d IH]; simpl.
  - intros H. now inversion H.
  - now destruct (String.eqb k key).
Qed.

(** [_filter_serializer] raises [KeyError] as soon as one serialized object
    lacks the key; otherwise it answers, in their order, the objects whose
    entry at the key is true. *)
Theorem filter_serializer_outcome (l : list dict) (key : string) :
  _filter_serializer l key
  = if forallb (has_key key) l then Ok (filter (flag_of key) l)
    else Raise KeyError.
Proof.
  induction l as [|d l IH]; simpl; [easy|].
  unfold has_key at 1, flag_of at 1.
  destruct (getitem d key) as [v|e] eqn:Hd; simpl.
  - rewrite IH. now destruct (forallb (has_key key) l).
  - now rewrite (getitem_raises _ _ _ Hd).
Qed.

(** *** The relationship views as a whole *)

Lemma list_response_store (request : Request) (key : string) (db : DB) :
  snd (_list_response request key db) = db.
Proof.
  unfold _list_response, get_serializer. run.
  assert (Hst := paginate_queryset_store request
                   (filter_queryset request (get_queryset db)) db).
  destruct (paginate_queryset request
              (filter_queryset request (get_queryset db)) db)
    as [[[pg|]|e] db1]; simpl in Hst; subst db1; try easy.
  - now destruct (_filter_serializer
                    (map (to_representation db (user request)) (object_list pg))
                    key).
  - now destruct (_filter_serializer
                    (map (to_representation db (user request))
                       (filter_queryset request (get_queryset db))) key).
Qed.

(** The three relationship views never write to the store, whatever the
    request and whether they answer or raise. *)
Theorem relationship_views_read_only (request : Request) (db : DB) :
  snd (friends request db) = db
  /\ snd (followers request db) = db
  /\ snd (followed request db) = db.
Proof.
  unfold friends, followers, followed, bind.
  assert (H1 := list_response_store request "is_friends" db).
  assert (H2 := list_response_store request "is_follower" db).
  assert (H3 := list_response_store request "is_followed" db).
  destruct (_list_response request "is_friends" db) as [[[r1|l1]|e1] d1];
    destruct (_list_response request "is_follower" db) as [[[r2|l2]|e2] d2];
    destruct (_list_response request "is_followed" db) as [[[r3|l3]|e3] d3];
    simpl in *; subst; easy.
Qed.

(** Without a paginator a relationship view answers the bare list of all the
    rows of the filtered queryset whose gating flag is true. *)
Theorem unpaginated_view_lists_every_match (db : DB) (request : Request)
    (key : string) :
  gating_key key ->
  page_size = None \/ page_size = Some 0%nat ->
  relationship_view key request db
  = (Ok (mkResponse
           (Listing
              (filter (flag_of key)
                 (map (to_representation db (user request))
                    (filter_queryset request (get_queryset db)))))
           None), db).
Proof.
  intros Hkey Hsize.
  assert (Hpage :
    paginate_queryset request (filter_queryset request (get_queryset db)) db
    = (Ok None, db)).
  { unfold paginate_queryset. now destruct Hsize as [-> | ->]. }
  assert (Hrun := list_response_run db request key None Hkey Hpage).
  destruct Hkey as [-> | [-> | ->]]; unfold relationship_view; simpl;
    unfold friends, followers, followed, bind; now rewrite Hrun.
Qed.

(** An out-of-range page number is answered with [NotFound]. *)
Lemma page_out_of_range (db : DB) (request : Request) (key : string) (n : nat) :
  page_size = Some (S n) ->
  (page_number request = 0
   \/ pages_of (List.length (filter_queryset request (get_queryset db))) (S n)
      < page_number request)%nat ->
  _list_response request key db = (Raise NotFound, db).
Proof.
  intros Hsize Hp. unfold _list_response, paginate_queryset. run.
  rewrite Hsize. fold (pages_of (List.length
                                   (filter_queryset request (get_queryset db)))
                         (S n)).
  assert (Hout :
    ((1 <=? page_number request)
     && (page_number request
         <=? pages_of (List.length (filter_queryset request (get_queryset db)))
               (S n)))%nat = false).
  { apply andb_false_iff. destruct Hp as [Hp | Hp].
    - left. apply Nat.leb_gt. lia.
    - right. now apply Nat.leb_gt. }
  now rewrite Hout.
Qed.

Lemma chunks_cover {A} (size k : nat) (l : list A) :
  (List.length l <= k * size)%nat ->
  List.concat (map (fun i => firstn size (skipn (i * size) l)) (seq 0 k)) = l.
Proof.
  revert l. induction k as [|k IH]; intros l Hlen.
  - simpl in *. destruct l; [easy|simpl in Hlen; lia].
  - simpl seq. rewrite <- seq_shift, map_cons, map_map. simpl List.concat.
    rewrite (map_ext _ (fun i => firstn size (skipn (i * size) (skipn size l)))).
    + rewrite IH; [apply firstn_skipn|]. rewrite length_skipn. lia.
    + intros i. rewrite skipn_skipn. do 2 f_equal. lia.
Qed.

Lemma pages_of_enough (count n : nat) :
  (count <= pages_of count (S n) * S n)%nat.
Proof.
  unfold pages_of.
  assert (Hdiv := Nat.div_mod_eq (count + S n - 1) (S n)).
  assert (Hmod := Nat.mod_upper_bound (count + S n - 1) (S n)).
  assert (Hmax := Nat.le_max_r 1 ((count + S n - 1) / S n)).
  nia.
Qed.

(** Page after page, a paginated relationship view lists every row of the
    filtered queryset whose gating flag is true, once and in order: the
    pages put together are the filter of the whole queryset. *)
Theorem pages_lose_no_match (db : DB) (request : Request) (key : string)
    (n : nat) :
  gating_key key ->
  page_size = Some (S n) ->
  (forall p, filter_queryset (with_page request p) (get_queryset db)
             = filter_queryset request (get_queryset db)) ->
  List.concat
    (map (fun p => listed (relationship_view key (with_page request p) db))
       (seq 1
          (pages_of (List.length (filter_queryset request (get_queryset db)))
             (S n))))
  = filter (flag_of key)
      (map (to_representation db (user request))
         (filter_queryset request (get_queryset db))).
Proof.
  intros Hkey Hsize Hsame.
  set (queryset := filter_queryset request (get_queryset db)).
  set (pages := pages_of (List.length queryset) (S n)).
  rewrite (map_ext_in _
             (fun p => filter (flag_of key)
                         (map (to_representation db (user request))
                            (firstn (S n) (skipn ((p - 1) * S n) queryset))))).
  - rewrite <- seq_shift, map_map.
    rewrite (map_ext _
               (fun i => filter (flag_of key)
                           (map (to_representation db (user request))
                              (firstn (S n) (skipn (i * S n) queryset))))).
    + rewrite <- (map_map (fun i => firstn (S n) (skipn (i * S n) queryset))
                    (fun c => filter (flag_of key)
                                (map (to_representation db (user request)) c))).
      rewrite <- (map_map (map (to_representation db (user request)))
                    (filter (flag_of key))).
      rewrite concat_filter_map, <- concat_map.
      rewrite chunks_cover; [easy|]. apply pages_of_enough.
    + intros i. simpl. now rewrite Nat.sub_0_r.
  - intros p Hp. apply in_seq in Hp.
    destruct (view_filters_the_page db (with_page request p) key n Hkey Hsize)
      as [response [next [previous [Hrun [Hpay _]]]]].
    + simpl. lia.
    + change (page_number (with_page request p)) with p. rewrite Hsame.
      fold queryset. unfold pages, pages_of in Hp. lia.
    + unfold listed. rewrite Hrun. simpl. unfold results_of. rewrite Hpay.
      simpl. now rewrite Hsame.
Qed.

(** An out-of-range page number is answered with [NotFound] by every
    relationship view, and nothing is written. *)
Theorem page_out_of_range_is_not_found (db : DB) (request : Request)
    (key : string) (n : nat) :
  page_size = Some (S n) ->
  (page_number request = 0
   \/ pages_of (List.length (filter_queryset request (get_queryset db))) (S n)
      < page_number request)%nat ->
  relationship_view key request db = (Raise NotFound, db).
Proof.
  intros Hsize Hp. unfold relationship_view, friends, followers, followed, bind.
  destruct (String.eqb key "is_friends"); [|destruct (String.eqb key "is_follower")];
    now rewrite (page_out_of_range db request _ n Hsize Hp).
Qed.

(** *** Looking an account up *)

Lemma get_object_by_key (action : string) (request : Request) (pk : Py.value)
    (db : DB) (o : user_object) :
  Py.eq pk (Py.Str "me") = false ->
  fst (get_object action request pk db) = Ok o ->
  exists u,
    o = Account u /\ to_key pk = Ok (id u)
    /\ In u (filter_queryset request (get_queryset db))
    /\ forallb (fun p => has_object_permission p request u)
         (get_permissions action) = true.
Proof.
  intros Hme. unfold get_object, check_object_permissions, permission_denied.
  run. rewrite Hme. destruct (to_key pk) as [k|e]; [|easy].
  destruct (filter (fun u => id u =? k)
              (filter_queryset request (get_queryset db)))
    as [|u [|v l]] eqn:Hf; try easy.
  assert (Hin : In u (filter (fun u => id u =? k)
                        (filter_queryset request (get_queryset db))))
    by (rewrite Hf; now left).
  apply filter_In in Hin. destruct Hin as [Hin Hk]. apply Z.eqb_eq in Hk.
  destruct (forallb (fun p => has_object_permission p request u)
              (get_permissions action)) eqn:Hperm.
  - simpl. intros H. inversion H. exists u. now subst.
  - now destruct (is_authenticated (user request)).
Qed.

Lemma get_object_unknown_key (action : string) (request : Request)
    (pk : Py.value) (db : DB) :
  Py.eq pk (Py.Str "me") = false ->
  (forall u, In u (filter_queryset request (get_queryset db)) ->
             to_key pk <> Ok (id u)) ->
  get_object action request pk db = (Raise Http404, db).
Proof.
  intros Hme Hnone. unfold get_object. run. rewrite Hme.
  destruct (to_key pk) as [k|e] eqn:Hk; [|easy].
  destruct (filter (fun u => id u =? k)
              (filter_queryset request (get_queryset db)))
    as [|u l] eqn:Hf; [easy|]. exfalso.
  assert (Hin : In u (filter (fun u => id u =? k)
                        (filter_queryset request (get_queryset db))))
    by (rewrite Hf; now left).
  apply filter_In in Hin. destruct Hin as [Hin Hid]. apply Z.eqb_eq in Hid.
  apply (Hnone u Hin). now subst.
Qed.

(** A key other than ['me'] that [int] refuses, or whose number is within
    the range of the key column and is the key of no row of the filtered
    queryset of active users, is answered with 404 by [get_object], and so by
    [destroy] and [change_password], which leave the store as it is. *)
Theorem unknown_key_is_not_found (action : string) (request : Request)
    (pk : Py.value) (db : DB) :
  Py.eq pk (Py.Str "me") = false ->
  (forall k, to_key pk = Ok k -> key_in_range k) ->
  (forall u, In u (filter_queryset request (get_queryset db)) ->
             to_key pk <> Ok (id u)) ->
  get_object action request pk db = (Raise Http404, db)
  /\ destroy request pk db = (Raise Http404, db)
  /\ change_password request pk db = (Raise Http404, db).
Proof.
  intros Hme _ Hnone.
  assert (Hget := fun act => get_object_unknown_key act request pk db Hme Hnone).
  split; [apply Hget|]. split.
  - unfold destroy, bind. now rewrite Hget.
  - apply change_password_no_object. now rewrite Hget.
Qed.

(** Once [destroy] has answered for a key other than ['me'], the same key
    is answered with 404, for every caller, by [destroy] and by
    [change_password]. *)
Theorem destroyed_account_is_not_found (db db' : DB) (request again : Request)
    (pk : Py.value) (response : Response) :
  (forall r qs u, In u (filter_queryset r qs) -> In u qs) ->
  NoDup (map id (users db)) ->
  Py.eq pk (Py.Str "me") = false ->
  destroy request pk db = (Ok response, db') ->
  destroy again pk db' = (Raise Http404, db')
  /\ change_password again pk db' = (Raise Http404, db').
Proof.
  intros Hsub Hnd Hme Hrun.
  destruct (destroy_outcome _ _ _ _ _ Hrun) as [u Hobj].
  destruct (get_object_by_key _ _ _ _ _ Hme Hobj) as [u' [Hu [Hk [Hin _]]]].
  inversion Hu; subst u'. clear Hu.
  assert (Hrow : In u (users db)).
  { apply Hsub in Hin. now apply get_queryset_in in Hin. }
  rewrite (destroy_run db request pk u Hnd Hrow Hobj) in Hrun.
  inversion Hrun; subst.
  assert (Hget : forall act,
            get_object act again pk (deactivate u db)
            = (Raise Http404, deactivate u db)).
  { intros act. apply get_object_unknown_key; [easy|].
    intros v Hv. apply Hsub, deactivated_not_listed in Hv.
    destruct Hv as [Hne _]. rewrite Hk. intros H. inversion H. congruence. }
  split.
  - unfold destroy, bind. now rewrite Hget.
  - apply change_password_no_object. now rewrite Hget.
Qed.

(** For the anonymous caller the key ['me'] is the anonymous user object,
    which cannot be saved or checked: [destroy], and [change_password] on a
    form that passes the serializer and carries the current password, raise
    [NotImplementedError] and leave the store as it is. *)
Theorem anonymous_me_cannot_be_saved (db : DB) (request : Request) :
  user request = AnonymousUser ->
  destroy request (Py.Str "me") db = (Raise NotImplementedError, db)
  /\ (forall old,
        serializer_is_valid (data request) = true ->
        getitem (data request) "old_password" = Ok old ->
        change_password request (Py.Str "me") db
        = (Raise NotImplementedError, db)).
Proof.
  intros Hu. split.
  - unfold destroy, get_object, bind. simpl. now rewrite Hu.
  - intros old Hvalid Hold.
    rewrite (change_password_run db request (Py.Str "me") AnonymousUser).
    + now rewrite Hvalid, Hold.
    + unfold get_object. simpl. now rewrite Hu.
Qed.

Lemma change_password_change_found (db db' : DB) (request : Request)
    (pk : Py.value) (outcome : result Response) :
  change_password request pk db = (outcome, db') -> db' <> db ->
  exists u, fst (get_object "change_password" request pk db) = Ok (Account u).
Proof.
  intros Hrun Hchanged.
  destruct (fst (get_object "change_password" request pk db)) as [o|e] eqn:Hobj.
  - rewrite (change_password_run _ _ _ _ Hobj) in Hrun.
    destruct (serializer_is_valid (data request));
      [|inversion Hrun; congruence].
    destruct (getitem (data request) "old_password") as [old|e];
      [|inversion Hrun; congruence].
    destruct o as [|u]; [inversion Hrun; congruence|]. now exists u.
  - rewrite (change_password_no_object _ _ _ _ Hobj) in Hrun.
    inversion Hrun; congruence.
Qed.

(** Through a key other than ['me'], [destroy] answers and
    [change_password] changes the store only for a row of the filtered
    queryset that the key names and for which [IsProfileOwnerOrAdmin] grants
    the object permission to the caller. *)
Theorem account_changes_need_object_permission (db : DB) (request : Request)
    (pk : Py.value) :
  Py.eq pk (Py.Str "me") = false ->
  (forall response db',
     destroy request pk db = (Ok response, db') ->
     exists u, to_key pk = Ok (id u)
               /\ In u (filter_queryset request (get_queryset db))
               /\ owner_has_object_permission request u = true)
  /\ (forall outcome db',
        change_password request pk db = (outcome, db') -> db' <> db ->
        exists u, to_key pk = Ok (id u)
                  /\ In u (filter_queryset request (get_queryset db))
                  /\ owner_has_object_permission request u = true).
Proof.
  intros Hme. split.
  - intros response db' Hrun.
    destruct (destroy_outcome _ _ _ _ _ Hrun) as [u Hobj].
    destruct (get_object_by_key _ _ _ _ _ Hme Hobj) as [u' [_ [Hk [Hin Hperm]]]].
    exists u'. repeat split; try easy. simpl in Hperm.
    now rewrite andb_true_r in Hperm.
  - intros outcome db' Hrun Hchanged.
    destruct (change_password_change_found _ _ _ _ _ Hrun Hchanged)
      as [u Hobj].
    destruct (get_object_by_key _ _ _ _ _ Hme Hobj) as [u' [_ [Hk [Hin Hperm]]]].
    exists u'. repeat split; try easy. simpl in Hperm.
    now rewrite andb_true_r in Hperm.
Qed.

(** *** Changing the password *)

(** [change_password] writes nothing when it fails: whenever it raises or
    answers with status 400 the store is as before.  A form that passes the
    serializer without the key ['old_password'], or without ['new_password']
    once the current password has verified, is a [KeyError]. *)
Theorem change_password_failures_keep_store (db : DB) (request : Request)
    (pk : Py.value) :
  (forall e db', change_password request pk db = (Raise e, db') -> db' = db)
  /\ (forall response db',
        change_password request pk db = (Ok response, db') ->
        status_code response = HTTP_400_BAD_REQUEST -> db' = db)
  /\ (forall o,
        fst (get_object "change_password" request pk db) = Ok o ->
        serializer_is_valid (data request) = true ->
        getitem (data request) "old_password" = Raise KeyError ->
        change_password request pk db = (Raise KeyError, db))
  /\ (forall u old,
        fst (get_object "change_password" request pk db) = Ok (Account u) ->
        serializer_is_valid (data request) = true ->
        getitem (data request) "old_password" = Ok old ->
        check_password old (password u) = true ->
        getitem (data request) "new_password" = Raise KeyError ->
        change_password request pk db = (Raise KeyError, db)).
Proof.
  assert (Hcases : forall outcome db',
            change_password request pk db = (outcome, db') ->
            db' = db
            \/ outcome
               = Ok (mkResponse
                       (Status "success" "Password updated successfully") None)).
  { intros outcome db' Hrun.
    destruct (fst (get_object "change_password" request pk db)) as [o|e] eqn:Hobj.
    - rewrite (change_password_run _ _ _ _ Hobj) in Hrun.
      destruct (serializer_is_valid (data request));
        [|inversion Hrun; now left].
      destruct (getitem (data request) "old_password") as [old|e];
        [|inversion Hrun; now left].
      destruct o as [|u]; [inversion Hrun; now left|].
      destruct (check_password old (password u)); [|inversion Hrun; now left].
      destruct (getitem (data request) "new_password");
        inversion Hrun; [now right|now left].
    - rewrite (change_password_no_object _ _ _ _ Hobj) in Hrun.
      inversion Hrun. now left. }
  split; [|split; [|split]].
  - intros e db' Hrun. now destruct (Hcases _ _ Hrun).
  - intros response db' Hrun Hstatus.
    destruct (Hcases _ _ Hrun) as [H | H]; [easy|].
    inversion H; subst. discriminate.
  - intros o Hobj Hvalid Hold.
    rewrite (change_password_run _ _ _ _ Hobj). now rewrite Hvalid, Hold.
  - intros u old Hobj Hvalid Hold Hcheck Hnew.
    rewrite (change_password_run _ _ _ _ Hobj).
    now rewrite Hvalid, Hold, Hcheck, Hnew.
Qed.

(** With a hasher whose hashes verify the password they were made from:
    after a signed-in caller has changed his own password, his row is still
    in the table, and the stored hash of every row with his key verifies the
    new password. *)
Theorem changed_password_verifies (db : DB) (request : Request) (u : User)
    (old new : string) :
  (forall raw, check_password raw (make_password raw) = true) ->
  NoDup (map id (users db)) -> In u (users db) ->
  user request = Account u ->
  serializer_is_valid (data request) = true ->
  getitem (data request) "old_password" = Ok old ->
  check_password old (password u) = true ->
  getitem (data request) "new_password" = Ok new ->
  exists db',
    change_password request (Py.Str "me") db
    = (Ok (mkResponse (Status "success" "Password updated successfully") None),
       db')
    /\ In (set_password_hash u (make_password new)) (users db')
    /\ (forall r, In r (users db') -> id r = id u ->
                  check_password new (password r) = true).
Proof.
  intros Hhash Hnd Hin Hu Hvalid Hold Hcheck Hnew.
  assert (Hobj : fst (get_object "change_password" request (Py.Str "me") db)
                 = Ok (Account u)).
  { unfold get_object. simpl. now rewrite Hu. }
  rewrite (change_password_run _ _ _ _ Hobj).
  rewrite Hvalid, Hold, Hcheck, Hnew. eexists. split; [reflexivity|].
  assert (Hsave := save_changed_row db u
                     (fun r => set_password_hash r (make_password new))
                     (fun r => eq_refl) Hnd Hin).
  cbv beta in Hsave. rewrite Hsave. simpl. split.
  - apply in_map_iff. exists u. now rewrite Z.eqb_refl.
  - intros r Hr Hid. apply in_map_iff in Hr. destruct Hr as [r0 [<- Hr0]].
    destruct (id r0 =? id u) eqn:E; simpl.
    + apply Hhash.
    + apply Z.eqb_neq in E. now destruct (id r0 =? id u).
Qed.

(** *** The edge operations, for every key *)

(** For a signed-in caller, [add_friend] and [remove_friend] answer with
    their self-reference error exactly for the key ['me'] and for a key that
    is the caller's number; in particular for no other string. *)
Theorem self_reference_guard (db : DB) (request : Request) (a : User)
    (pk : Py.value) :
  user request = Account a ->
  ((exists db',
      add_friend request pk db
      = (Ok (mkResponse (Status "error" "you can't befriend yourself") None),
         db'))
   <-> pk = Py.Str "me" \/ Py.as_int pk = Some (id a))
  /\ ((exists db',
         remove_friend request pk db
         = (Ok (mkResponse
                  (Status "error" "you can't remove yourself from friends")
                  None), db'))
      <-> pk = Py.Str "me" \/ Py.as_int pk = Some (id a)).
Proof.
  intros Hu.
  assert (Hguard : Py.eq pk (Py.Str "me") || Py.eq pk (id_of (user request))
                   = true
                   <-> pk = Py.Str "me" \/ Py.as_int pk = Some (id a)).
  { rewrite Hu. destruct pk as [|s|n|c]; simpl.
    - split; [easy|]. now intros [H | H].
    - rewrite orb_false_r. split.
      + intros H. apply String.eqb_eq in H. left. now subst.
      + intros [H | H]; [|easy]. inversion H. apply String.eqb_refl.
    - split.
      + intros H. apply Z.eqb_eq in H. right. now subst.
      + intros [H | H]; [easy|]. inversion H. apply Z.eqb_refl.
    - split.
      + intros H. apply Z.eqb_eq in H. right. now rewrite H.
      + intros [H | H]; [easy|]. inversion H. apply Z.eqb_refl. }
  split; rewrite <- Hguard; unfold add_friend, remove_friend;
    destruct (Py.eq pk (Py.Str "me") || Py.eq pk (id_of (user request))).
  - split; [easy|]. intros _. now eexists.
  - split; [|easy]. intros [db' H]. exfalso. revert H. unfold bind.
    destruct (get_or_create (user request) pk db) as [[[r [|]]|e] db1];
      discriminate.
  - split; [easy|]. intros _. now eexists.
  - split; [|easy]. intros [db' H]. exfalso. revert H. unfold bind.
    destruct (filter_delete (user request) pk db) as [[[k counts]|e] db1];
      [|discriminate]. simpl. destruct (negb (k =? 0)%nat); discriminate.
Qed.

Lemma get_or_create_raises (who : user_object) (pk : Py.value) (db db' : DB)
    (e : exn) :
  get_or_create who pk db = (Raise e, db') -> db' = db.
Proof.
  unfold get_or_create. destruct who as [|u]; run.
  - intros H. now inversion H.
  - destruct (to_key pk) as [f|e']; [|intros H; now inversion H].
    destruct (filter (is_edge (id u) f) (user_friends db)) as [|r [|r' l]].
    + destruct (user_exists db (id u) && user_exists db f);
        [discriminate|intros H; now inversion H].
    + discriminate.
    + intros H. now inversion H.
Qed.

Lemma filter_delete_raises (who : user_object) (pk : Py.value) (db db' : DB)
    (e : exn) :
  filter_delete who pk db = (Raise e, db') -> db' = db.
Proof.
  unfold filter_delete. destruct who as [|u]; run.
  - intros H. now inversion H.
  - destruct (to_key pk) as [f|e']; [|intros H; now inversion H].
    now destruct (partition (is_edge (id u) f) (user_friends db)).
Qed.

(** The edge operations write nothing when they raise, and a string key
    other than ['me'] that is no number makes both raise [ValueError]. *)
Theorem edge_operation_failures (db : DB) (request : Request) (a : User) :
  user request = Account a ->
  (forall pk e db', add_friend request pk db = (Raise e, db') -> db' = db)
  /\ (forall pk e db', remove_friend request pk db = (Raise e, db') -> db' = db)
  /\ (forall s, s <> "me" -> Py.int_of_str s = None ->
        add_friend request (Py.Str s) db = (Raise ValueError, db)
        /\ remove_friend request (Py.Str s) db = (Raise ValueError, db)).
Proof.
  intros Hu. split; [|split].
  - intros pk e db'. unfold add_friend.
    destruct (Py.eq pk (Py.Str "me") || Py.eq pk (id_of (user request)));
      [discriminate|]. unfold bind.
    destruct (get_or_create (user request) pk db) as [[[r [|]]|e'] db1] eqn:Hg;
      try discriminate.
    intros H. inversion H; subst. now apply get_or_create_raises in Hg.
  - intros pk e db'. unfold remove_friend.
    destruct (Py.eq pk (Py.Str "me") || Py.eq pk (id_of (user request)));
      [discriminate|]. unfold bind.
    destruct (filter_delete (user request) pk db) as [[[k counts]|e'] db1] eqn:Hd.
    + simpl. destruct (negb (k =? 0)%nat); discriminate.
    + intros H. inversion H; subst. now apply filter_delete_raises in Hd.
  - intros s Hs Hnum. unfold add_friend, remove_friend. rewrite Hu. simpl.
    rewrite orb_false_r.
    assert (Hme : String.eqb s "me" = false) by now apply String.eqb_neq.
    rewrite Hme. unfold bind, get_or_create, filter_delete, lift. simpl.
    now rewrite Hnum.
Qed.

(** For distinct users A and B, adding the absent edge (A,B) and removing it
    again gives back the store as it was; removing a present edge and adding
    it again gives back a store with the same edges. *)
Theorem add_and_remove_undo_each_other (db : DB) (request : Request)
    (a b : User) (pk : Py.value) :
  user request = Account a ->
  In a (users db) -> In b (users db) -> id a <> id b ->
  to_key pk = Ok (id b) ->
  (follows db (id a) (id b) = false ->
   snd (remove_friend request pk (snd (add_friend request pk db))) = db)
  /\ (follows db (id a) (id b) = true ->
      forall x y,
        follows (snd (add_friend request pk (snd (remove_friend request pk db))))
          x y
        = follows db x y).
Proof.
  intros Hu Ha Hb Hne Hk. assert (Hne' : id b <> id a) by congruence.
  apply user_exists_in in Ha, Hb. split; intros Hab.
  - rewrite (add_friend_absent db request a pk (id b)) by easy. simpl.
    rewrite (remove_friend_store _ request a pk (id b)) by easy. simpl.
    rewrite filter_app. simpl. unfold is_edge at 2. simpl.
    rewrite !Z.eqb_refl. simpl. rewrite app_nil_r.
    unfold follows in Hab. rewrite (filter_out_none _ _ Hab).
    now destruct db.
  - intros x y.
    rewrite (remove_friend_present db request a pk (id b)) by easy. simpl.
    rewrite (add_friend_absent _ request a pk (id b)); try easy.
    + simpl. unfold follows. simpl. rewrite existsb_app. simpl.
      rewrite orb_false_r.
      assert (Hdel := follows_after_delete db (id a) (id b) x y).
      unfold follows in Hdel. simpl in Hdel. rewrite Hdel.
      destruct ((x =? id a) && (y =? id b)) eqn:Hxy.
      * apply andb_true_iff in Hxy. destruct Hxy as [Hx Hy].
        apply Z.eqb_eq in Hx, Hy. subst x y. unfold follows in Hab.
        rewrite Hab. unfold is_edge. simpl. now rewrite !Z.eqb_refl.
      * simpl. rewrite andb_true_r.
        destruct (is_edge x y {| user_id := id a; friend_id := id b |}) eqn:E;
          [|now rewrite orb_false_r].
        apply is_edge_spec in E. inversion E; subst.
        now rewrite !Z.eqb_refl in Hxy.
    + rewrite follows_after_delete. now rewrite !Z.eqb_refl, andb_false_r.
Qed.

(** *** The constraints of the tables *)

Lemma save_keeps_keys (inst : User) (db : DB) :
  NoDup (map id (users db)) ->
  NoDup (map id (users (snd (save inst db))))
  /\ user_friends (snd (save inst db)) = user_friends db.
Proof.
  intros Hnd. unfold save, modify. simpl.
  destruct (user_exists db (id inst)) eqn:Hex; simpl; split; try easy.
  - rewrite map_map.
    rewrite (map_ext _ id); [easy|]. intros r.
    destruct (id r =? id inst) eqn:E; [|easy]. apply Z.eqb_eq in E. now symmetry.
  - rewrite map_app. simpl. apply NoDup_app; [easy|repeat constructor; easy|].
    intros k Hk [<- | []]. apply in_map_iff in Hk. destruct Hk as [r [Hid Hr]].
    assert (Htrue : user_exists db (id inst) = true).
    { apply existsb_exists. exists r. split; [easy|]. now apply Z.eqb_eq. }
    congruence.
Qed.

Lemma add_friend_rows (db : DB) (request : Request) (pk : Py.value) :
  users (snd (add_friend request pk db)) = users db
  /\ (user_friends (snd (add_friend request pk db)) = user_friends db
      \/ exists r, ~ In r (user_friends db)
                   /\ user_friends (snd (add_friend request pk db))
                      = (user_friends db ++ [r])%list).
Proof.
  unfold add_friend.
  destruct (Py.eq pk (Py.Str "me") || Py.eq pk (id_of (user request)));
    [split; [easy|now left]|].
  unfold bind, get_or_create. destruct (user request) as [|u];
    [split; [easy|now left]|]. run.
  destruct (to_key pk) as [f|e]; [|split; [easy|now left]].
  destruct (filter (is_edge (id u) f) (user_friends db)) as [|r [|r' l]] eqn:Hf;
    try (split; [easy|now left]).
  destruct (user_exists db (id u) && user_exists db f);
    [|split; [easy|now left]].
  simpl. split; [easy|]. right. eexists. split; [|reflexivity].
  intros Hin.
  assert (H : In {| user_id := id u; friend_id := f |}
                (filter (is_edge (id u) f) (user_friends db))).
  { apply filter_In. split; [easy|]. now apply is_edge_spec. }
  now rewrite Hf in H.
Qed.

Lemma remove_friend_rows (db : DB) (request : Request) (pk : Py.value) :
  users (snd (remove_friend request pk db)) = users db
  /\ (user_friends (snd (remove_friend request pk db)) = user_friends db
      \/ exists f,
           user_friends (snd (remove_friend request pk db))
           = filter f (user_friends db)).
Proof.
  unfold remove_friend.
  destruct (Py.eq pk (Py.Str "me") || Py.eq pk (id_of (user request)));
    [split; [easy|now left]|].
  unfold bind, filter_delete. destruct (user request) as [|u];
    [split; [easy|now left]|]. run.
  destruct (to_key pk) as [f|e]; [|split; [easy|now left]].
  rewrite partition_as_filter. simpl.
  destruct (filter (is_edge (id u) f) (user_friends db)); simpl;
    (split; [easy|right; eexists; reflexivity]).
Qed.

Lemma destroy_rows (db : DB) (request : Request) (pk : Py.value) :
  snd (destroy request pk db) = db
  \/ exists inst, snd (destroy request pk db) = snd (save inst db).
Proof.
  unfold destroy, bind.
  assert (Hst := get_object_store "destroy" request pk db).
  destruct (get_object "destroy" request pk db) as [[[|u]|e] db1];
    simpl in Hst; subst db1; [now left| |now left].
  right. now exists (set_is_active u false).
Qed.

Lemma change_password_rows (db : DB) (request : Request) (pk : Py.value) :
  snd (change_password request pk db) = db
  \/ exists inst, snd (change_password request pk db) = snd (save inst db).
Proof.
  destruct (fst (get_object "change_password" request pk db)) as [o|e] eqn:Hobj.
  - rewrite (change_password_run _ _ _ _ Hobj).
    destruct (serializer_is_valid (data request)); [|now left].
    destruct (getitem (data request) "old_password") as [old|e]; [|now left].
    destruct o as [|u]; [now left|].
    destruct (check_password old (password u)); [|now left].
    destruct (getitem (data request) "new_password") as [new|e]; [|now left].
    right. now eexists.
  - rewrite (change_password_no_object _ _ _ _ Hobj). now left.
Qed.

(** The handlers that write keep the constraints of the tables: from a
    store in which the user keys are distinct and no pair (user, friend) is
    stored twice, [add_friend], [remove_friend], [destroy] and
    [change_password] all lead, for every caller and every key, to such a
    store. *)
Theorem handlers_keep_constraints (db : DB) (request : Request)
    (pk : Py.value) :
  constraints db ->
  constraints (snd (add_friend request pk db))
  /\ constraints (snd (remove_friend request pk db))
  /\ constraints (snd (destroy request pk db))
  /\ constraints (snd (change_password request pk db)).
Proof.
  intros [Hkeys Hrows]. unfold constraints.
  assert (Hsave : forall inst,
            NoDup (map id (users (snd (save inst db))))
            /\ NoDup (user_friends (snd (save inst db)))).
  { intros inst. destruct (save_keeps_keys inst db Hkeys) as [H1 H2].
    now rewrite H2. }
  split; [|split; [|split]].
  - destruct (add_friend_rows db request pk) as [-> [-> | [r [Hr ->]]]];
      split; try easy.
    apply NoDup_app; [easy|repeat constructor; easy|].
    now intros x Hx [<- | []].
  - destruct (remove_friend_rows db request pk) as [-> [-> | [f ->]]];
      split; try easy. now apply NoDup_filter.
  - destruct (destroy_rows db request pk) as [-> | [inst ->]]; [easy|].
    apply Hsave.
  - destruct (change_password_rows db request pk) as [-> | [inst ->]]; [easy|].
    apply Hsave.
Qed.

End UsersViewSet.

(** ** The post serializer *)

(** C10.  For every post, [get_is_liked] is false when the requesting user
    is anonymous, whatever the post and its likes; for a signed-in requester
    it is the answer of the post's [is_already_liked] for that user. *)
Theorem is_liked_needs_a_signed_in_user
    (is_already_liked : Post -> user_object -> bool)
    (form : list (string * string)) (page : nat) (obj : Post) :
  get_is_liked is_already_liked
    (Some {| user := AnonymousUser; data := form; page_number := page |}) obj
  = Ok false
  /\ forall u,
       get_is_liked is_already_liked
         (Some {| user := Account u; data := form; page_number := page |}) obj
       = Ok (is_already_liked obj (Account u)).
Proof. split; [reflexivity|intros u; reflexivity]. Qed.

(** ** The properties on the sample data *)

Import Fixture.

(** C5.  In every relationship view the gating flag is tested after the page
    is cut: with a paginator of page size N and a page number in range, the
    view answers the rows of that page of the whole filtered active-user
    queryset whose flag is true, at most N of them, next to the count of the
    whole queryset.  The page can be short while matching users remain: with
    carol following alice and pages of two, the first page of alice's
    followers is empty although carol is an active user who follows her. *)
Theorem filter_follows_pagination :
  (forall (filter_queryset : Request -> list User -> list User)
          (page_size : option nat) (db : DB) (request : Request)
          (key : string) (n : nat),
     gating_key key ->
     page_size = Some (S n) ->
     (1 <= page_number request)%nat ->
     (page_number request
      <= Nat.max 1
           ((List.length (filter_queryset request (get_queryset db)) + S n - 1)
            / S n))%nat ->
     exists response next previous,
       relationship_view filter_queryset page_size key request db
       = (Ok response, db)
       /\ payload response
          = Paginated
              (List.length (filter_queryset request (get_queryset db)))
              next previous
              (filter (flag_of key)
                 (map (to_representation db (user request))
                    (firstn (S n)
                       (skipn ((page_number request - 1) * S n)
                          (filter_queryset request (get_queryset db))))))
       /\ (List.length (results_of response) <= S n)%nat)
  /\ (exists response,
        followers unfiltered (Some 2%nat) (request_of (Account alice))
          (store [edge carol alice])
        = (Ok response, store [edge carol alice])
        /\ (List.length (results_of response) < 2)%nat
        /\ In carol (get_queryset (store [edge carol alice]))
        /\ flag_of "is_follower"
             (to_representation (store [edge carol alice]) (Account alice) carol)
           = true
        /\ ~ In (to_representation (store [edge carol alice]) (Account alice)
                   carol)
               (results_of response)).
Proof.
  split.
  - intros filter_queryset page_size db request key n Hkey Hsize Hlo Hhi.
    exact (view_filters_the_page filter_queryset page_size db request key n
             Hkey Hsize Hlo Hhi).
  - eexists. split; [reflexivity|]. simpl. split; [lia|].
    split; [right; right; now left|]. split; [reflexivity|]. intros [].
Qed.

(** C2.  The guard of the two edge operations compares the key of the URL, a
    string, with the caller's numeric key: for alice, whose key is 5, the key
    "5" passes it, [add_friend] stores the edge from alice to herself and
    answers "friend added", and [remove_friend] deletes that edge and answers
    "friend removed". *)
Theorem own_key_as_text_passes_the_guard :
  add_friend (request_of (Account alice)) (Py.Str "5") (store [])
  = (Ok (mkResponse (Status "success" "friend added") None),
     store [edge alice alice])
  /\ remove_friend (request_of (Account alice)) (Py.Str "5")
       (store [edge alice alice])
     = (Ok (mkResponse (Status "success" "friend removed") None), store []).
Proof. split; reflexivity. Qed.

(** The statement of C4 fails on the code: with the edge from alice to bob
    in the store, [add_friend] for bob gives no response whose status is
    "success". *)
Lemma duplicate_edge_is_not_reported_as_success :
  ~ exists response db',
      add_friend (request_of (Account alice)) (Py.Str "7")
        (store [edge alice bob])
      = (Ok response, db')
      /\ status_of response = Some "success".
Proof.
  intros [response [db' [Hrun Hstatus]]]. vm_compute in Hrun.
  inversion Hrun; subst. discriminate.
Qed.

(** The statement of C8 fails on the code: alice's current password is not
    "nope", and a form that supplies only that as the current password is
    answered with the serializer's error on the missing field, not with
    "Wrong password.". *)
Lemma invalid_form_is_not_answered_wrong_password :
  check_password "nope" (password alice) = false
  /\ getitem (data (form (Account alice) [("old_password", "nope")]))
       "old_password" = Ok "nope"
  /\ change_password unfiltered owner_object_permission make_password
       check_password is_valid errors
       (form (Account alice) [("old_password", "nope")]) (Py.Str "me") (store [])
     = (Ok (mkResponse (Errors [("new_password", ["This field is required."])])
              (Some HTTP_400_BAD_REQUEST)), store [])
  /\ fst (change_password unfiltered owner_object_permission make_password
            check_password is_valid errors
            (form (Account alice) [("old_password", "nope")]) (Py.Str "me")
            (store []))
     <> Ok (mkResponse (Errors [("old_password", ["Wrong password."])])
              (Some HTTP_400_BAD_REQUEST)).
Proof.
  split; [reflexivity|]. split; [reflexivity|]. split; [reflexivity|].
  vm_compute. discriminate.
Qed.

(** *** The theorems at the sample data *)

Lemma add_remove_report_witness :
  (user (request_of (Account alice)) = Account alice
   /\ In alice (users (store [])) /\ In bob (users (store []))
   /\ id alice <> id bob
   /\ to_key (Py.Str "7") = Ok (id bob)
   /\ NoDup (user_friends (store [])))
  /\ (exists db',
        add_friend (request_of (Account alice)) (Py.Str "7") (store [])
        = (Ok (mkResponse (Status "success" "friend added") None), db')
        /\ follows db' (id alice) (id bob) = true
        /\ add_friend (request_of (Account alice)) (Py.Str "7") db'
           = (Ok (mkResponse (Status "error" "user already your friend") None),
              db'))
  /\ remove_friend (request_of (Account alice)) (Py.Str "7") (store [])
     = (Ok (mkResponse (Status "error" "user is not your friend") None),
        store []).
Proof.
  assert (Hu : user (request_of (Account alice)) = Account alice)
    by reflexivity.
  assert (Ha : In alice (users (store []))) by (simpl; auto).
  assert (Hb : In bob (users (store []))) by (simpl; auto).
  assert (Hne : id alice <> id bob) by (simpl; lia).
  assert (Hk : to_key (Py.Str "7") = Ok (id bob)) by reflexivity.
  assert (Hnd : NoDup (user_friends (store []))) by constructor.
  split; [now repeat split|].
  exact (add_remove_report (store []) (request_of (Account alice)) alice bob
           (Py.Str "7") Hu Ha Hb Hne Hk Hnd).
Defined.

Lemma duplicate_and_missing_edge_report_witness :
  (user (request_of (Account alice)) = Account alice
   /\ id alice <> id bob
   /\ to_key (Py.Str "7") = Ok (id bob)
   /\ NoDup (user_friends (store [edge alice bob]))
   /\ follows (store [edge alice bob]) (id alice) (id bob) = true)
  /\ exists response,
       add_friend (request_of (Account alice)) (Py.Str "7")
         (store [edge alice bob])
       = (Ok response, store [edge alice bob])
       /\ status_code response = HTTP_200_OK
       /\ status_of response = Some "error"
       /\ message_of response = Some "user already your friend".
Proof.
  assert (Hu : user (request_of (Account alice)) = Account alice)
    by reflexivity.
  assert (Hne : id alice <> id bob) by (simpl; lia).
  assert (Hk : to_key (Py.Str "7") = Ok (id bob)) by reflexivity.
  assert (Hnd : NoDup (user_friends (store [edge alice bob]))).
  { simpl. constructor; [intros []|constructor]. }
  assert (Hab : follows (store [edge alice bob]) (id alice) (id bob) = true)
    by reflexivity.
  split; [now repeat split|].
  exact (proj1 (duplicate_and_missing_edge_report (store [edge alice bob])
                  (request_of (Account alice)) alice bob (Py.Str "7")
                  Hu Hne Hk Hnd) Hab).
Defined.

Lemma edge_operations_touch_one_edge_witness :
  (user (request_of (Account alice)) = Account alice
   /\ id alice <> id bob
   /\ to_key (Py.Str "7") = Ok (id bob))
  /\ follows
       (snd (add_friend (request_of (Account alice)) (Py.Str "7")
               (store [edge bob alice]))) (id bob) (id alice)
     = follows (store [edge bob alice]) (id bob) (id alice)
  /\ follows
       (snd (remove_friend (request_of (Account alice)) (Py.Str "7")
               (store [edge bob alice]))) (id bob) (id alice)
     = follows (store [edge bob alice]) (id bob) (id alice).
Proof.
  assert (Hu : user (request_of (Account alice)) = Account alice)
    by reflexivity.
  assert (Hne : id alice <> id bob) by (simpl; lia).
  assert (Hk : to_key (Py.Str "7") = Ok (id bob)) by reflexivity.
  split; [now repeat split|].
  destruct (edge_operations_touch_one_edge (store [edge bob alice])
              (request_of (Account alice)) alice bob (Py.Str "7") Hu Hne Hk)
    as [_ [_ [_ [_ [Hadd [Hremove _]]]]]].
  exact (conj Hadd Hremove).
Defined.

Lemma friends_iff_both_edges_witness :
  (user (request_of (Account alice)) = Account alice
   /\ paginate_queryset (Some 2%nat) (request_of (Account alice))
        (unfiltered (request_of (Account alice))
           (get_queryset (store [edge alice bob; edge bob alice])))
        (store [edge alice bob; edge bob alice])
      = (Ok (Some {| object_list := [alice; bob]; number := 1;
                     paginator_count := 3; num_pages := 2 |}),
         store [edge alice bob; edge bob alice]))
  /\ exists in_friends,
       friends unfiltered (Some 2%nat) (request_of (Account alice))
         (store [edge alice bob; edge bob alice])
       = (Ok in_friends, store [edge alice bob; edge bob alice])
       /\ In (to_representation (store [edge alice bob; edge bob alice])
                (Account alice) bob)
            (results_of in_friends).
Proof.
  assert (Hu : user (request_of (Account alice)) = Account alice)
    by reflexivity.
  assert (Hpage :
    paginate_queryset (Some 2%nat) (request_of (Account alice))
      (unfiltered (request_of (Account alice))
         (get_queryset (store [edge alice bob; edge bob alice])))
      (store [edge alice bob; edge bob alice])
    = (Ok (Some {| object_list := [alice; bob]; number := 1;
                   paginator_count := 3; num_pages := 2 |}),
       store [edge alice bob; edge bob alice])) by reflexivity.
  split; [now split|].
  destruct (friends_iff_both_edges unfiltered (Some 2%nat)
              (store [edge alice bob; edge bob alice])
              (request_of (Account alice)) alice _ Hu Hpage)
    as [in_friends [_ [_ [Hrun [_ [_ [Hlisted _]]]]]]].
  exists in_friends. split; [exact Hrun|].
  apply (Hlisted bob).
  - simpl. auto.
  - split; reflexivity.
Defined.

Lemma filter_follows_pagination_witness :
  (gating_key "is_follower"
   /\ Some 2%nat = Some 2%nat
   /\ (1 <= page_number (request_of (Account alice)))%nat
   /\ (page_number (request_of (Account alice))
       <= Nat.max 1
            ((List.length
                (unfiltered (request_of (Account alice))
                   (get_queryset (store [edge carol alice]))) + 2 - 1) / 2))%nat)
  /\ exists response next previous,
       relationship_view unfiltered (Some 2%nat) "is_follower"
         (request_of (Account alice)) (store [edge carol alice])
       = (Ok response, store [edge carol alice])
       /\ payload response
          = Paginated
              (List.length
                 (unfiltered (request_of (Account alice))
                    (get_queryset (store [edge carol alice]))))
              next previous
              (filter (flag_of "is_follower")
                 (map (to_representation (store [edge carol alice])
                         (user (request_of (Account alice))))
                    (firstn 2
                       (skipn ((page_number (request_of (Account alice)) - 1) * 2)
                          (unfiltered (request_of (Account alice))
                             (get_queryset (store [edge carol alice])))))))
       /\ (List.length (results_of response) <= 2)%nat.
Proof.
  assert (Hkey : gating_key "is_follower") by (right; left; reflexivity).
  assert (Hsize : Some 2%nat = Some 2%nat) by reflexivity.
  assert (Hlo : (1 <= page_number (request_of (Account alice)))%nat)
    by (simpl; lia).
  assert (Hhi :
    (page_number (request_of (Account alice))
     <= Nat.max 1
          ((List.length
              (unfiltered (request_of (Account alice))
                 (get_queryset (store [edge carol alice]))) + 2 - 1) / 2))%nat)
    by (vm_compute; lia).
  split; [now repeat split|].
  exact (proj1 filter_follows_pagination unfiltered (Some 2%nat)
           (store [edge carol alice]) (request_of (Account alice))
           "is_follower" 1%nat Hkey Hsize Hlo Hhi).
Defined.

Lemma destroy_is_logical_witness :
  ((forall r qs u, In u (unfiltered r qs) -> In u qs)
   /\ NoDup (map id (users (store [edge alice bob; edge bob alice])))
   /\ (forall u, user (request_of (Account alice)) = Account u ->
                 In u (users (store [edge alice bob; edge bob alice]))))
  /\ destroy unfiltered owner_object_permission (request_of (Account alice))
       (Py.Str "me") (store [edge alice bob; edge bob alice])
     = (Ok (mkResponse (Status "success" "Account is not active now")
              (Some HTTP_200_OK)),
        deactivate alice (store [edge alice bob; edge bob alice])).
Proof.
  assert (Hsub : forall (r : Request) (qs : list User) (u : User),
                   In u (unfiltered r qs) -> In u qs)
    by (intros r qs u H; exact H).
  assert (Hnd : NoDup (map id (users (store [edge alice bob; edge bob alice])))).
  { simpl. repeat constructor; simpl; intros H;
      repeat (destruct H as [H | H]; [discriminate H|]); exact H. }
  assert (Hcaller : forall u, user (request_of (Account alice)) = Account u ->
                              In u (users (store [edge alice bob; edge bob alice]))).
  { intros u H. injection H as <-. simpl. auto. }
  split; [now repeat split|].
  exact (proj1 (destroy_is_logical unfiltered owner_object_permission
                  (Some 2%nat) (store [edge alice bob; edge bob alice])
                  (request_of (Account alice)) (Py.Str "me")
                  Hsub Hnd Hcaller) alice eq_refl).
Defined.

Lemma change_password_checks_current_witness :
  (fst (get_object unfiltered owner_object_permission "change_password"
          (form (Account alice)
             [("old_password", "nope"); ("new_password", "fresh")])
          (Py.Str "me") (store []))
   = Ok (Account alice)
   /\ is_valid
        (data (form (Account alice)
                 [("old_password", "nope"); ("new_password", "fresh")]))
      = true
   /\ getitem
        (data (form (Account alice)
                 [("old_password", "nope"); ("new_password", "fresh")]))
        "old_password"
      = Ok "nope"
   /\ check_password "nope" (password alice) = false)
  /\ change_password unfiltered owner_object_permission make_password
       check_password is_valid errors
       (form (Account alice)
          [("old_password", "nope"); ("new_password", "fresh")])
       (Py.Str "me") (store [])
     = (Ok (mkResponse (Errors [("old_password", ["Wrong password."])])
              (Some HTTP_400_BAD_REQUEST)), store []).
Proof.
  split; [now repeat split|].
  exact (proj1 (change_password_checks_current unfiltered
                  owner_object_permission make_password check_password
                  is_valid errors (store [])
                  (form (Account alice)
                     [("old_password", "nope"); ("new_password", "fresh")])
                  (Py.Str "me"))
           alice "nope" eq_refl eq_refl eq_refl eq_refl).
Defined.

Lemma create_rejects_signed_in_witness :
  is_anonymous (user (request_of (Account alice))) = false
  /\ create register (request_of (Account alice)) (store [])
     = (Ok (mkResponse (Status "error" "you already signed up") None),
        store []).
Proof.
  split; [reflexivity|].
  exact (proj1 (create_rejects_signed_in register (store [])
                  (request_of (Account alice))) eq_refl).
Defined.

(** ** The reading of keys *)

(** [int] on some keys: blanks around, Unicode digits and grouped digits are
    read; a separator byte before the digits, a trailing underscore, a sign
    apart from the digits and the word ['me'] are no numbers. *)
Lemma int_of_str_samples :
  Py.int_of_str "7" = Some 7
  /\ Py.int_of_str " 7 " = Some 7
  /\ Py.int_of_str "٧" = Some 7
  /\ Py.int_of_str "-1_0" = Some (-10)
  /\ Py.int_of_str (String (ascii_of_nat 28) "7") = None
  /\ Py.int_of_str "7_" = None
  /\ Py.int_of_str "- 7" = None
  /\ Py.int_of_str "me" = None
  /\ Py.int_of_str "" = None.
Proof. repeat split; reflexivity. Qed.

(** ** Further properties *)

(** [LoginView.post] reads the two credentials before it validates the
    form: without the key ['email'] or the key ['password'] it raises
    [KeyError], whatever the serializer would say.  With both keys, a form
    that does not pass the serializer is answered 400 with the serializer's
    errors and the store untouched, whatever [authenticate] and [login] would
    do. *)
Theorem login_reads_credentials_first
    (is_valid : list (string * string) -> bool)
    (errors : list (string * string) -> list (string * list string))
    (authenticate : Request -> string -> string -> M (option User))
    (login : Request -> User -> M unit)
    (request : Request) (db : DB) :
  (getitem (data request) "email" = Raise KeyError
   \/ getitem (data request) "password" = Raise KeyError ->
   LoginView.post is_valid errors authenticate login request db
   = (Raise KeyError, db))
  /\ (forall email password,
        getitem (data request) "email" = Ok email ->
        getitem (data request) "password" = Ok password ->
        is_valid (data request) = false ->
        LoginView.post is_valid errors authenticate login request db
        = (Ok (mkResponse (Errors (errors (data request)))
                 (Some HTTP_400_BAD_REQUEST)), db)).
Proof.
  unfold LoginView.post, bind, lift. split.
  - intros [H | H].
    + now rewrite H.
    + rewrite H. destruct (getitem (data request) "email") as [email|e] eqn:He;
        [easy|]. now rewrite (getitem_raises _ _ _ He).
  - intros email password He Hp Hvalid. now rewrite He, Hp, Hvalid.
Qed.

(** *** The further properties at the sample data *)

Lemma unpaginated_view_lists_every_match_witness :
  (gating_key "is_follower" /\ (@None nat = None \/ @None nat = Some 0%nat))
  /\ relationship_view unfiltered None "is_follower"
       (request_of (Account alice)) (store [edge bob alice])
     = (Ok (mkResponse
              (Listing
                 [to_representation (store [edge bob alice]) (Account alice) bob])
              None), store [edge bob alice]).
Proof.
  assert (Hkey : gating_key "is_follower") by (right; left; reflexivity).
  assert (Hsize : @None nat = None \/ @None nat = Some 0%nat)
    by (left; reflexivity).
  split; [now split|].
  exact (unpaginated_view_lists_every_match unfiltered None
           (store [edge bob alice]) (request_of (Account alice)) "is_follower"
           Hkey Hsize).
Defined.

Lemma pages_lose_no_match_witness :
  (gating_key "is_follower" /\ Some 2%nat = Some 2%nat
   /\ forall p,
        unfiltered (with_page (request_of (Account alice)) p)
          (get_queryset (store [edge carol alice; edge bob alice]))
        = unfiltered (request_of (Account alice))
            (get_queryset (store [edge carol alice; edge bob alice])))
  /\ List.concat
       (map (fun p =>
               listed (relationship_view unfiltered (Some 2%nat) "is_follower"
                         (with_page (request_of (Account alice)) p)
                         (store [edge carol alice; edge bob alice])))
          (seq 1 2))
     = [to_representation (store [edge carol alice; edge bob alice])
          (Account alice) bob;
        to_representation (store [edge carol alice; edge bob alice])
          (Account alice) carol].
Proof.
  assert (Hkey : gating_key "is_follower") by (right; left; reflexivity).
  assert (Hsize : Some 2%nat = Some 2%nat) by reflexivity.
  assert (Hsame : forall p,
            unfiltered (with_page (request_of (Account alice)) p)
              (get_queryset (store [edge carol alice; edge bob alice]))
            = unfiltered (request_of (Account alice))
                (get_queryset (store [edge carol alice; edge bob alice])))
    by (intros p; reflexivity).
  split; [now repeat split|].
  exact (pages_lose_no_match unfiltered (Some 2%nat)
           (store [edge carol alice; edge bob alice])
           (request_of (Account alice)) "is_follower" 1%nat Hkey Hsize Hsame).
Defined.

Lemma page_out_of_range_is_not_found_witness :
  (Some 2%nat = Some 2%nat
   /\ (page_number (with_page (request_of (Account alice)) 0) = 0
       \/ pages_of
            (List.length
               (unfiltered (with_page (request_of (Account alice)) 0)
                  (get_queryset (store []))))
            2
          < page_number (with_page (request_of (Account alice)) 0))%nat)
  /\ relationship_view unfiltered (Some 2%nat) "is_friends"
       (with_page (request_of (Account alice)) 0) (store [])
     = (Raise NotFound, store []).
Proof.
  assert (Hsize : Some 2%nat = Some 2%nat) by reflexivity.
  assert (Hp :
    (page_number (with_page (request_of (Account alice)) 0) = 0
     \/ pages_of
          (List.length
             (unfiltered (with_page (request_of (Account alice)) 0)
                (get_queryset (store []))))
          2
        < page_number (with_page (request_of (Account alice)) 0))%nat)
    by (left; reflexivity).
  split; [now split|].
  exact (page_out_of_range_is_not_found unfiltered (Some 2%nat) (store [])
           (with_page (request_of (Account alice)) 0) "is_friends" 1%nat
           Hsize Hp).
Defined.

Lemma unknown_key_is_not_found_witness :
  (Py.eq (Py.Str "8") (Py.Str "me") = false
   /\ (forall k, to_key (Py.Str "8") = Ok k -> key_in_range k)
   /\ forall u,
        In u (unfiltered (request_of (Account alice)) (get_queryset (store []))) ->
        to_key (Py.Str "8") <> Ok (id u))
  /\ destroy unfiltered owner_object_permission (request_of (Account alice))
       (Py.Str "8") (store [])
     = (Raise Http404, store []).
Proof.
  assert (Hme : Py.eq (Py.Str "8") (Py.Str "me") = false) by reflexivity.
  assert (Hrange : forall k, to_key (Py.Str "8") = Ok k -> key_in_range k).
  { intros k Hk. injection Hk as <-. unfold key_in_range. lia. }
  assert (Hnone : forall u,
            In u (unfiltered (request_of (Account alice))
                    (get_queryset (store []))) ->
            to_key (Py.Str "8") <> Ok (id u)).
  { intros u [<- | [<- | [<- | []]]]; discriminate. }
  split; [exact (conj Hme (conj Hrange Hnone))|].
  exact (proj1 (proj2 (unknown_key_is_not_found unfiltered
                         owner_object_permission make_password check_password
                         is_valid errors "destroy"
                         (request_of (Account alice)) (Py.Str "8") (store [])
                         Hme Hrange Hnone))).
Defined.

Lemma destroyed_account_is_not_found_witness :
  ((forall r qs u, In u (unfiltered r qs) -> In u qs)
   /\ NoDup (map id (users (store [])))
   /\ Py.eq (Py.Str "7") (Py.Str "me") = false
   /\ destroy unfiltered owner_object_permission (request_of (Account bob))
        (Py.Str "7") (store [])
      = (Ok (mkResponse (Status "success" "Account is not active now")
               (Some HTTP_200_OK)), deactivate bob (store [])))
  /\ destroy unfiltered owner_object_permission (request_of (Account alice))
       (Py.Str "7") (deactivate bob (store []))
     = (Raise Http404, deactivate bob (store [])).
Proof.
  assert (Hsub : forall (r : Request) (qs : list User) (u : User),
                   In u (unfiltered r qs) -> In u qs)
    by (intros r qs u H; exact H).
  assert (Hnd : NoDup (map id (users (store [])))).
  { simpl. repeat constructor; simpl; intros H;
      repeat (destruct H as [H | H]; [discriminate H|]); exact H. }
  assert (Hme : Py.eq (Py.Str "7") (Py.Str "me") = false) by reflexivity.
  assert (Hrun :
    destroy unfiltered owner_object_permission (request_of (Account bob))
      (Py.Str "7") (store [])
    = (Ok (mkResponse (Status "success" "Account is not active now")
             (Some HTTP_200_OK)), deactivate bob (store [])))
    by reflexivity.
  split; [now repeat split|].
  exact (proj1 (destroyed_account_is_not_found unfiltered
                  owner_object_permission make_password check_password
                  is_valid errors (store []) (deactivate bob (store []))
                  (request_of (Account bob)) (request_of (Account alice))
                  (Py.Str "7") _ Hsub Hnd Hme Hrun)).
Defined.

Lemma anonymous_me_cannot_be_saved_witness :
  user (request_of AnonymousUser) = AnonymousUser
  /\ destroy unfiltered owner_object_permission (request_of AnonymousUser)
       (Py.Str "me") (store [])
     = (Raise NotImplementedError, store []).
Proof.
  split; [reflexivity|].
  exact (proj1 (anonymous_me_cannot_be_saved unfiltered owner_object_permission
                  make_password check_password is_valid errors (store [])
                  (request_of AnonymousUser) eq_refl)).
Defined.

Lemma account_changes_need_object_permission_witness :
  (Py.eq (Py.Str "7") (Py.Str "me") = false
   /\ destroy unfiltered owner_object_permission (request_of (Account bob))
        (Py.Str "7") (store [])
      = (Ok (mkResponse (Status "success" "Account is not active now")
               (Some HTTP_200_OK)), deactivate bob (store [])))
  /\ exists u,
       to_key (Py.Str "7") = Ok (id u)
       /\ In u (unfiltered (request_of (Account bob)) (get_queryset (store [])))
       /\ owner_object_permission (request_of (Account bob)) u = true.
Proof.
  assert (Hme : Py.eq (Py.Str "7") (Py.Str "me") = false) by reflexivity.
  assert (Hrun :
    destroy unfiltered owner_object_permission (request_of (Account bob))
      (Py.Str "7") (store [])
    = (Ok (mkResponse (Status "success" "Account is not active now")
             (Some HTTP_200_OK)), deactivate bob (store [])))
    by reflexivity.
  split; [now split|].
  exact (proj1 (account_changes_need_object_permission unfiltered
                  owner_object_permission make_password check_password
                  is_valid errors (store []) (request_of (Account bob))
                  (Py.Str "7") Hme) _ _ Hrun).
Defined.

Lemma change_password_failures_keep_store_witness :
  (fst (get_object unfiltered owner_object_permission "change_password"
          (form (Account alice) [("new_password", "fresh")]) (Py.Str "me")
          (store []))
   = Ok (Account alice)
   /\ getitem (data (form (Account alice) [("new_password", "fresh")]))
        "old_password"
      = Raise KeyError)
  /\ change_password unfiltered owner_object_permission make_password
       check_password (fun _ => true) errors
       (form (Account alice) [("new_password", "fresh")]) (Py.Str "me")
       (store [])
     = (Raise KeyError, store []).
Proof.
  split; [now split|].
  exact (proj1 (proj2 (proj2
           (change_password_failures_keep_store unfiltered
              owner_object_permission make_password check_password
              (fun _ => true) errors (store [])
              (form (Account alice) [("new_password", "fresh")])
              (Py.Str "me"))))
           (Account alice) eq_refl eq_refl eq_refl).
Defined.

Lemma changed_password_verifies_witness :
  ((forall raw, check_password raw (make_password raw) = true)
   /\ NoDup (map id (users (store [])))
   /\ In alice (users (store []))
   /\ is_valid [("old_password", "secret"); ("new_password", "fresh")] = true
   /\ check_password "secret" (password alice) = true)
  /\ exists db',
       change_password unfiltered owner_object_permission make_password
         check_password is_valid errors
         (form (Account alice)
            [("old_password", "secret"); ("new_password", "fresh")])
         (Py.Str "me") (store [])
       = (Ok (mkResponse (Status "success" "Password updated successfully")
                None), db')
       /\ In (set_password_hash alice (make_password "fresh")) (users db')
       /\ (forall r, In r (users db') -> id r = id alice ->
                     check_password "fresh" (password r) = true).
Proof.
  assert (Hhash : forall raw, check_password raw (make_password raw) = true)
    by (intros raw; apply String.eqb_refl).
  assert (Hnd : NoDup (map id (users (store [])))).
  { simpl. repeat constructor; simpl; intros H;
      repeat (destruct H as [H | H]; [discriminate H|]); exact H. }
  assert (Hin : In alice (users (store []))) by (simpl; auto).
  split; [now repeat split|].
  exact (changed_password_verifies unfiltered owner_object_permission
           make_password check_password is_valid errors (store [])
           (form (Account alice)
              [("old_password", "secret"); ("new_password", "fresh")])
           alice "secret" "fresh" Hhash Hnd Hin eq_refl eq_refl eq_refl eq_refl
           eq_refl).
Defined.

Lemma self_reference_guard_witness :
  user (request_of (Account alice)) = Account alice
  /\ exists db',
       add_friend (request_of (Account alice)) (Py.Str "me") (store [])
       = (Ok (mkResponse (Status "error" "you can't befriend yourself") None),
          db').
Proof.
  split; [reflexivity|].
  exact (proj2 (proj1 (self_reference_guard (store [])
                         (request_of (Account alice)) alice (Py.Str "me")
                         eq_refl))
           (or_introl eq_refl)).
Defined.

Lemma edge_operation_failures_witness :
  (user (request_of (Account alice)) = Account alice
   /\ "abc" <> "me" /\ Py.int_of_str "abc" = None)
  /\ add_friend (request_of (Account alice)) (Py.Str "abc") (store [])
     = (Raise ValueError, store [])
  /\ remove_friend (request_of (Account alice)) (Py.Str "abc") (store [])
     = (Raise ValueError, store []).
Proof.
  assert (Hs : "abc" <> "me") by discriminate.
  split; [now repeat split|].
  exact (proj2 (proj2 (edge_operation_failures (store [])
                         (request_of (Account alice)) alice eq_refl))
           "abc" Hs eq_refl).
Defined.

Lemma add_and_remove_undo_each_other_witness :
  (user (request_of (Account alice)) = Account alice
   /\ In alice (users (store [edge bob alice]))
   /\ In bob (users (store [edge bob alice]))
   /\ id alice <> id bob
   /\ to_key (Py.Str "7") = Ok (id bob)
   /\ follows (store [edge bob alice]) (id alice) (id bob) = false)
  /\ snd (remove_friend (request_of (Account alice)) (Py.Str "7")
            (snd (add_friend (request_of (Account alice)) (Py.Str "7")
                    (store [edge bob alice]))))
     = store [edge bob alice].
Proof.
  assert (Ha : In alice (users (store [edge bob alice]))) by (simpl; auto).
  assert (Hb : In bob (users (store [edge bob alice]))) by (simpl; auto).
  assert (Hne : id alice <> id bob) by (simpl; lia).
  split; [now repeat split|].
  exact (proj1 (add_and_remove_undo_each_other (store [edge bob alice])
                  (request_of (Account alice)) alice bob (Py.Str "7")
                  eq_refl Ha Hb Hne eq_refl) eq_refl).
Defined.

Lemma handlers_keep_constraints_witness :
  constraints (store [edge alice bob])
  /\ constraints
       (snd (add_friend (request_of (Account alice)) (Py.Str "9")
               (store [edge alice bob])))
  /\ constraints
       (snd (destroy unfiltered owner_object_permission
               (request_of (Account alice)) (Py.Str "me")
               (store [edge alice bob]))).
Proof.
  assert (Hc : constraints (store [edge alice bob])).
  { split; simpl.
    - repeat constructor; simpl; intros H;
        repeat (destruct H as [H | H]; [discriminate H|]); exact H.
    - repeat constructor. intros []. }
  split; [exact Hc|].
  destruct (handlers_keep_constraints unfiltered owner_object_permission
              make_password check_password is_valid errors
              (store [edge alice bob]) (request_of (Account alice))
              (Py.Str "9") Hc) as [Hadd _].
  destruct (handlers_keep_constraints unfiltered owner_object_permission
              make_password check_password is_valid errors
              (store [edge alice bob]) (request_of (Account alice))
              (Py.Str "me") Hc) as [_ [_ [Hdestroy _]]].
  exact (conj Hadd Hdestroy).
Defined.

Lemma login_reads_credentials_first_witness :
  (getitem (data (form AnonymousUser [("password", "secret")])) "email"
   = Raise KeyError
   \/ getitem (data (form AnonymousUser [("password", "secret")])) "password"
      = Raise KeyError)
  /\ LoginView.post is_valid errors (fun _ _ _ => ret None) (fun _ _ => ret tt)
       (form AnonymousUser [("password", "secret")]) (store [])
     = (Raise KeyError, store []).
Proof.
  assert (H :
    getitem (data (form AnonymousUser [("password", "secret")])) "email"
    = Raise KeyError
    \/ getitem (data (form AnonymousUser [("password", "secret")])) "password"
       = Raise KeyError) by (left; reflexivity).
  split; [exact H|].
  exact (proj1 (login_reads_credentials_first is_valid errors
                  (fun _ _ _ => ret None) (fun _ _ => ret tt)
                  (form AnonymousUser [("password", "secret")]) (store []))
           H).
Defined.
